(** * TeamAssist IA: scoring, recommendations, loading and filtering

    A shallow embedding of the two dashboards of the repository:

    - [Appl.py]: [compute_scores], [generate_recommendations],
      [comment_suggestions] and the submission block that appends a check-in
      to the session history;
    - [Collecte.py]: [load_data], the choices of the sidebar and the filter
      block applied to the loaded table.

    Python integers are [Z], Python floats are binary64 primitive floats,
    Python [str] values are [string]s holding their UTF-8 encoding, and an
    exception is a value of [exn] carried by [result]. *)

From Stdlib Require Import ZArith QArith Qround Bool List String Ascii Lia.
From Stdlib Require Import Numbers.DecimalString.
From Stdlib Require Sorted OrderedTypeEx.
From Stdlib Require Import Floats.PrimFloat Floats.FloatOps Floats.SpecFloat.
Import ListNotations.

Set Warnings "-inexact-float".

Open Scope string_scope.
Open Scope list_scope.
Open Scope Z_scope.

(* ================================================================= *)
(** * Python values used by both programs *)

Module Py.

(** Exceptions the modelled code can raise. *)
Inductive exn : Type :=
| KeyError (key : string)
| ValueError (msg : string)
| OverflowError (msg : string)
| TypeError (msg : string)
| AttributeError (msg : string).

(** The outcome of a call: a value or a raised exception. *)
Inductive result (A : Type) : Type :=
| Ok (a : A)
| Raise (e : exn).

Arguments Ok {A} a.
Arguments Raise {A} e.

Definition bind {A B : Type} (r : result A) (k : A -> result B) : result B :=
  match r with
  | Ok a => k a
  | Raise e => Raise e
  end.

(** [x or ""] on a value that is a [str] or [None]. *)
Definition or_empty (x : option string) : string :=
  match x with
  | Some s => s
  | None => ""
  end.

(** [d[k]] on a dict written as a literal: the first entry with key [k], a
    [KeyError] carrying [k] when there is none. *)
Fixpoint getitem {V : Type} (d : list (string * V)) (k : string) : result V :=
  match d with
  | [] => Raise (KeyError k)
  | (k', v) :: d' => if String.eqb k' k then Ok v else getitem d' k
  end.

(** [k in d] on such a dict. *)
Definition has_key {V : Type} (d : list (string * V)) (k : string) : bool :=
  existsb (fun e => String.eqb (fst e) k) d.

(** [max(0, min(100, x))]. *)
Definition clamp100 (x : Z) : Z := Z.max 0 (Z.min 100 x).

(** ** Strings *)

(** [str.lower] on one byte of the UTF-8 encoding.  [after_c3] tells that
    the previous byte was the lead byte 0xC3, under which the Latin-1
    capitals U+00C0..U+00DE (the multiplication sign U+00D7 apart) are
    encoded as 0x80..0x9E and their small letters 32 above. *)
Definition lower_byte (after_c3 : bool) (c : ascii) : ascii :=
  let n := N_of_ascii c in
  if ((65 <=? n) && (n <=? 90))%N then ascii_of_N (n + 32)
  else if after_c3 && ((128 <=? n) && (n <=? 158) && negb (n =? 151))%N
       then ascii_of_N (n + 32)
  else c.

Fixpoint lower_from (after_c3 : bool) (s : string) : string :=
  match s with
  | EmptyString => EmptyString
  | String c s' =>
      String (lower_byte after_c3 c) (lower_from (N_of_ascii c =? 195)%N s')
  end.

(** [s.lower()] for text of the Basic Latin and Latin-1 Supplement blocks,
    which hold every character of the flagged terms of [compute_scores];
    other code points are left as they are. *)
Definition lower (s : string) : string := lower_from false s.

(** [k] is read at the start of [s]. *)
Fixpoint starts_with (k s : string) : bool :=
  match k with
  | EmptyString => true
  | String a k' =>
      match s with
      | EmptyString => false
      | String b s' => Ascii.eqb a b && starts_with k' s'
      end
  end.

(** [k in s] on strings: [k] occurs in [s] as a contiguous substring.  On
    UTF-8 encodings an occurrence of bytes is an occurrence of code
    points. *)
Fixpoint str_in (k s : string) : bool :=
  starts_with k s ||
  match s with
  | EmptyString => false
  | String _ s' => str_in k s'
  end.

(** [str(z)] for an integer, as an f-string interpolates it: decimal digits
    with a leading minus sign for a negative number. *)
Definition str_of_int (z : Z) : string := NilZero.string_of_int (Z.to_int z).

(** ** Floats *)

(** [float(z)]: the binary64 value nearest to the integer [z] (exact when
    [|z| < 2^53]). *)
Definition float_of_int (z : Z) : float :=
  SF2Prim (binary_normalize prec emax z 0 false).

(** Round half to even of [m * 2^e] for a positive mantissa [m]. *)
Definition round_half_even_pos (m : positive) (e : Z) : Z :=
  if 0 <=? e then Z.pos m * 2 ^ e
  else
    let d := 2 ^ (- e) in
    let q := Z.pos m / d in
    let r := Z.pos m mod d in
    match 2 * r ?= d with
    | Lt => q
    | Gt => q + 1
    | Eq => if Z.even q then q else q + 1
    end.

(** [round(x)] on a float with no second argument: the nearest integer,
    ties going to the even one; [ValueError] on a NaN and [OverflowError] on
    an infinity. *)
Definition round (x : float) : result Z :=
  match Prim2SF x with
  | S754_zero _ => Ok 0
  | S754_finite s m e =>
      let n := round_half_even_pos m e in
      Ok (if s then - n else n)
  | S754_infinity _ => Raise (OverflowError "cannot convert float infinity to integer")
  | S754_nan => Raise (ValueError "cannot convert float NaN to integer")
  end.

End Py.

Import Py.

Notation "x <- r ;; k" := (bind r (fun x => k))
  (at level 61, r at next level, right associativity).

(* ================================================================= *)
(** * Appl.py: the check-in form *)

Module Appl.

(** ** [compute_scores] *)

Definition workload_map : list (string * Z) :=
  [("Faible", 1); ("Moyenne", 3); ("Élevée", 5)].

Definition conflict_map : list (string * Z) :=
  [("Non", 1); ("Oui (léger)", 3); ("Oui (important)", 5)].

Definition red_flags : list string :=
  ["burnout"; "épuis"; "angoiss"; "panic"; "déprim"; "harcel"; "insom";
   "mal"; "pression"; "overload"].

(** [any(k in text for k in red_flags)]. *)
Definition keyword_hit_of (text : string) : bool :=
  existsb (fun k => str_in k text) red_flags.

(** [round((stress * 0.6) + ((100 - motivation) * 0.4))], in binary64. *)
Definition raw_risk (stress motivation : Z) : result Z :=
  round (float_of_int stress * 0.6 + float_of_int (100 - motivation) * 0.4)%float.

Definition compute_scores (mood : Z) (workload : string) (sleep focus : Z)
    (conflicts : string) (comment : option string)
  : result (Z * Z * Z * bool) :=
  w <- getitem workload_map workload ;;
  c <- getitem conflict_map conflicts ;;
  let stress := (w * 12) + ((6 - mood) * 10) + ((8 - sleep) * 6) + (c * 6)
                + ((6 - focus) * 8) in
  let stress := clamp100 stress in
  let motivation := (mood * 14) + (focus * 10) + (sleep * 6) - (w * 8) - (c * 6) in
  let motivation := clamp100 motivation in
  risk <- raw_risk stress motivation ;;
  let risk := clamp100 risk in
  let text := lower (or_empty comment) in
  let keyword_hit := keyword_hit_of text in
  let risk := if keyword_hit then Z.min 100 (risk + 10) else risk in
  Ok (stress, motivation, risk, keyword_hit).

(** ** [generate_recommendations] *)

(** Lines 61-65: the level label chosen from [risk]. *)
Definition risk_level (risk : Z) : string :=
  if risk >=? 70 then "Élevé"
  else if risk >=? 40 then "Modéré"
  else "Faible".

Definition human_note : string :=
  "⚖️ Décision finale laissée au manager humain (IA = aide à la décision).".

Definition keyword_action : string :=
  "⚠️ Mots-clés sensibles détectés : renforcer l’attention humaine, proposer un accompagnement adapté.".

Definition generate_recommendations (stress motivation risk : Z)
    (keyword_hit : bool) : string * list string * list string * string :=
  let level := risk_level risk in
  let manager_actions : list string := [] in
  let team_actions : list string := [] in
  let '(manager_actions, team_actions) :=
    if String.eqb level "Élevé" then
      let manager_actions := manager_actions ++ [
        "Planifier un échange 1:1 sous 48h (écoute active, sans jugement).";
        "Réduire temporairement la charge / re-prioriser les tâches.";
        "Clarifier les attentes, délais, et points de blocage.";
        "Proposer un soutien (mentorat, binômage, pause planifiée)."
      ] in
      let team_actions := team_actions ++ [
        "Définir 1–2 priorités maximum pour la prochaine période.";
        "Bloquer une pause et une plage sans interruptions.";
        "Demander de l’aide sur une tâche précise (pair-programming / relecture / support)."
      ] in
      let manager_actions :=
        if keyword_hit then manager_actions ++ [keyword_action]
        else manager_actions in
      (manager_actions, team_actions)
    else if String.eqb level "Modéré" then
      (manager_actions ++ [
         "Faire un check-in rapide (10 min) cette semaine.";
         "Ajuster l’organisation : répartition, planning, micro-deadlines.";
         "Encourager la communication sur les obstacles."
       ],
       team_actions ++ [
         "Lister les blocages et proposer une solution / besoin.";
         "Mettre en place une routine courte de suivi (5 min/jour)."
       ])
    else
      (manager_actions ++ [
         "Maintenir le cadre actuel et valoriser les efforts.";
         "Préserver un bon équilibre : charge stable, feedback régulier."
       ],
       team_actions ++ [
         "Continuer les bonnes pratiques (organisation, pauses, communication)."
       ]) in
  let summary :=
    ("Niveau de risque : **" ++ level ++ "** (score " ++ str_of_int risk
     ++ "/100).")%string in
  (summary, manager_actions, team_actions, human_note).

(** The components of what [generate_recommendations] returns. *)
Definition summary_of (r : string * list string * list string * string) : string :=
  fst (fst (fst r)).
Definition manager_actions_of (r : string * list string * list string * string)
  : list string := snd (fst (fst r)).
Definition team_actions_of (r : string * list string * list string * string)
  : list string := snd (fst r).

(** ** The submission block (lines 201-223) *)

(** One entry of [st.session_state.history]; the field [h_k] is the value
    stored under the key [k] of the appended dict. *)
Record entry : Type := {
  h_date : string;
  h_org : string;
  h_role : string;
  h_mood : Z;
  h_workload : string;
  h_sleep : Z;
  h_focus : Z;
  h_conflicts : string;
  h_stress : Z;
  h_motivation : Z;
  h_risk : Z;
  h_flag_keywords : bool;
  h_comment : string
}.

(** What the sidebar and the form hold when the button is pressed. *)
Record form : Type := {
  org : string;
  role : string;
  anonym : bool;
  mood : Z;
  workload : string;
  sleep : Z;
  focus : Z;
  conflicts : string;
  comment : option string;
  consent : bool
}.

(** The form [f] with the anonymization box set to [b]. *)
Definition with_anonym (b : bool) (f : form) : form :=
  {| org := org f; role := role f; anonym := b; mood := mood f;
     workload := workload f; sleep := sleep f; focus := focus f;
     conflicts := conflicts f; comment := comment f; consent := consent f |}.

(** The body of [if submitted:] as a transition of the history: [now] is the
    text of [datetime.now().strftime("%Y-%m-%d %H:%M")].  Without consent
    nothing is appended. *)
Definition submit (now : string) (f : form) (history : list entry)
  : result (list entry) :=
  if negb (consent f) then Ok history
  else
    scores <- compute_scores (mood f) (workload f) (sleep f) (focus f)
                             (conflicts f) (comment f) ;;
    let '(stress, motivation, risk, keyword_hit) := scores in
    let _ := generate_recommendations stress motivation risk keyword_hit in
    Ok (history ++ [ {|
      h_date := now;
      h_org := org f;
      h_role := role f;
      h_mood := mood f;
      h_workload := workload f;
      h_sleep := sleep f;
      h_focus := focus f;
      h_conflicts := conflicts f;
      h_stress := stress;
      h_motivation := motivation;
      h_risk := risk;
      h_flag_keywords := keyword_hit;
      h_comment := if anonym f then "" else or_empty (comment f)
    |} ]).

(** Lines 205-206: the scores of a check-in and the recommendations drawn
    from them. *)
Definition analyse (mood : Z) (workload : string) (sleep focus : Z)
    (conflicts : string) (comment : option string)
  : result ((Z * Z * Z * bool) * (string * list string * list string * string)) :=
  scores <- compute_scores mood workload sleep focus conflicts comment ;;
  let '(stress, motivation, risk, keyword_hit) := scores in
  Ok (scores, generate_recommendations stress motivation risk keyword_hit).

(** The histories a session can hold: the empty list of lines 17-18, and
    what a submission that completes makes of a history of the session. *)
Inductive reachable : list entry -> Prop :=
| reachable_start : reachable []
| reachable_submit (now : string) (f : form) (history history' : list entry) :
    reachable history ->
    submit now f history = Ok history' ->
    reachable history'.

(** ** [comment_suggestions] and the comment box (lines 111-137, 183-188) *)

Definition comment_suggestions : list (string * list string) :=
  [
   ("Charge & délais",
     ["Je me sens sous pression à cause des délais cette semaine.";
      "J’ai trop de tâches en parallèle, je n’arrive pas à prioriser.";
      "Je suis bloqué(e) sur une partie et j’ai besoin d’aide."]);
   ("Énergie & sommeil",
     ["Je dors mal en ce moment, je manque d’énergie.";
      "Je suis fatigué(e) et j’ai du mal à rester concentré(e).";
      "J’ai besoin d’un rythme plus stable pour être efficace."]);
   ("Motivation",
     ["Je me sens moins motivé(e) depuis quelques jours.";
      "Je suis motivé(e) mais j’ai besoin d’objectifs plus clairs.";
      "Je me sens bien, j’avance correctement sur mes priorités."]);
   ("Relationnel & communication",
     ["Il y a des tensions légères dans l’équipe, ça me pèse un peu.";
      "Je préfère clarifier la communication sur qui fait quoi.";
      "Je me sens bien soutenu(e) par l’équipe en ce moment."])
  ].

(** [list(sugg.keys())]: the categories offered. *)
Definition suggestion_categories : list string := map fst comment_suggestions.

(** [["—"] + sugg[cat]]: the phrases offered for a category, after the
    placeholder. *)
Definition suggestion_choices (cat : string) : result (list string) :=
  phrases <- getitem comment_suggestions cat ;;
  Ok ("—" :: phrases).

(** [comment_default = "" if pick == "—" else pick]. *)
Definition comment_default (pick : string) : string :=
  if String.eqb pick "—" then "" else pick.

End Appl.

(* ================================================================= *)
(** * Collecte.py: the consultation dashboard *)

Module Collecte.

(** ** Tables *)

(** A [pandas.Timestamp]: the ordinal of its calendar day, which is what
    [.dt.date] keeps and what two [datetime.date] values are compared by,
    and the time elapsed within that day. *)
Record timestamp : Type := { ts_date : Z; ts_time : Z }.

(** A number held by a numeric column: [int64] or [float64]. *)
Inductive number : Type :=
| Int (z : Z)
| Float (x : float).

(** A cell of a table.  [NoneV], [NaN] and [NaT] are the three missing
    values: the Python [None], the missing number and the missing time. *)
Inductive cell : Type :=
| Str (s : string)
| Num (x : number)
| Time (t : timestamp)
| NoneV
| NaN
| NaT.

(** [notna] on one cell. *)
Definition notna (c : cell) : bool :=
  match c with
  | NoneV | NaN | NaT => false
  | _ => true
  end.

(** A [DataFrame], row by row: the cell of a row under the [i]-th label is
    its [i]-th element. *)
Record DataFrame : Type := { columns : list string; rows : list (list cell) }.

(** What [df[label]] selects: a [Series] when one column carries the
    label, a sub-frame when several do. *)
Inductive selection : Type :=
| Series (values : list cell)
| SubFrame (width : nat).

Fixpoint positions_from (i : nat) (label : string) (labels : list string)
  : list nat :=
  match labels with
  | [] => []
  | l :: labels' =>
      if String.eqb l label then i :: positions_from (S i) label labels'
      else positions_from (S i) label labels'
  end.

(** The positions of the columns labelled [label]. *)
Definition positions (label : string) (labels : list string) : list nat :=
  positions_from 0 label labels.

(** [label in df.columns]. *)
Definition has_column (df : DataFrame) (label : string) : bool :=
  existsb (String.eqb label) (columns df).

Definition cell_at (i : nat) (row : list cell) : cell := nth i row NoneV.

(** [df[label]]. *)
Definition getitem (df : DataFrame) (label : string) : result selection :=
  match positions label (columns df) with
  | [] => Raise (KeyError label)
  | [i] => Ok (Series (map (cell_at i) (rows df)))
  | ps => Ok (SubFrame (List.length ps))
  end.

Fixpoint set_nth (i : nat) (v : cell) (row : list cell) : list cell :=
  match row, i with
  | [], _ => []
  | _ :: row', O => v :: row'
  | c :: row', S i' => c :: set_nth i' v row'
  end.

(** [df[label] = values] where [label] is the [i]-th column: the cell of the
    [k]-th row becomes the [k]-th value. *)
Fixpoint assign_column (i : nat) (values : list cell) (rs : list (list cell))
  : list (list cell) :=
  match rs with
  | [] => []
  | r :: rs' => set_nth i (hd NoneV values) r :: assign_column i (tl values) rs'
  end.

(** [df[label] = None] for a label that is not a column yet: a new last
    column holding [None] in every row. *)
Definition add_none_column (df : DataFrame) (label : string) : DataFrame :=
  {| columns := columns df ++ [label];
     rows := map (fun r => r ++ [NoneV]) (rows df) |}.

(** [df[labels]]: for each label in turn every column carrying it;
    [KeyError] when a label is carried by none. *)
Definition select (df : DataFrame) (labels : list string) : result DataFrame :=
  match filter (fun l => negb (has_column df l)) labels with
  | [] =>
      let ps := flat_map (fun l => positions l (columns df)) labels in
      Ok {| columns := map (fun i => nth i (columns df) "") ps;
            rows := map (fun r => map (fun i => cell_at i r) ps) (rows df) |}
  | l :: _ => Raise (KeyError l)
  end.

(** [pd.DataFrame(rows, columns=header)] on lists of strings: short rows
    are filled with [None] up to the longest one, whose length has to be the
    number of labels. *)
Definition widest (rs : list (list string)) : nat :=
  fold_right (fun r n => Nat.max (List.length r) n) O rs.

Definition pad (n : nat) (r : list cell) : list cell :=
  r ++ repeat NoneV (n - List.length r).


Definition frame_of (rs : list (list string)) (header : list string)
  : result DataFrame :=
  match rs with
  | [] => Ok {| columns := header; rows := [] |}
  | _ =>
      if Nat.eqb (widest rs) (List.length header) then
        Ok {| columns := header;
              rows := map (fun r => pad (List.length header) (map Str r)) rs |}
      else Raise (ValueError "columns passed do not match the data")
  end.

(** [filtered[mask]] with a mask of one boolean per row. *)
Fixpoint keep (mask : list bool) (rs : list (list cell)) : list (list cell) :=
  match mask, rs with
  | b :: mask', r :: rs' => if b then r :: keep mask' rs' else keep mask' rs'
  | _, _ => []
  end.

(** The text of a cell read from the sheet. *)
Definition text_of (c : cell) : option string :=
  match c with
  | Str s => Some s
  | _ => None
  end.

(** ** [load_data] *)

Definition cols : list string :=
  ["timestamp"; "organization"; "user_role";
   "mood"; "workload"; "sleep_hours"; "focus";
   "conflicts"; "comment"].

Section Load.

(** The two pandas parsers, on the texts of a whole column ([None] for a
    cell that holds no text); with [errors="coerce"] a text that does not
    parse gives no value. *)
Variable parse_datetimes : list (option string) -> list (option timestamp).
Variable parse_numbers : list (option string) -> list (option number).

(** [pd.to_datetime(s, errors="coerce")]: a missing time where the parser
    gives no value.  A sub-frame is refused. *)
Definition to_datetime (s : selection) : result (list cell) :=
  match s with
  | Series vs =>
      let parsed := parse_datetimes (map text_of vs) in
      Ok (map (fun k => match nth k parsed None with
                        | Some t => Time t
                        | None => NaT
                        end) (seq 0 (List.length vs)))
  | SubFrame _ => Raise (ValueError "to assemble mappings requires year, month, day")
  end.

(** [pd.to_numeric(s, errors="coerce")]. *)
Definition to_numeric (s : selection) : result (list cell) :=
  match s with
  | Series vs =>
      let parsed := parse_numbers (map text_of vs) in
      Ok (map (fun k => match nth k parsed None with
                        | Some x => Num x
                        | None => NaN
                        end) (seq 0 (List.length vs)))
  | SubFrame _ => Raise (TypeError "arg must be a list, tuple, 1-d array, or Series")
  end.

(** [df[label] = convert(df[label])] for a column that exists once. *)
Definition coerce (convert : selection -> result (list cell))
    (df : DataFrame) (label : string) : result DataFrame :=
  s <- getitem df label ;;
  vs <- convert s ;;
  Ok {| columns := columns df;
        rows := assign_column (hd O (positions label (columns df))) vs (rows df) |}.

(** [for c in labels: df[c] = pd.to_numeric(df[c], errors="coerce")]. *)
Fixpoint coerce_numeric (df : DataFrame) (labels : list string)
  : result DataFrame :=
  match labels with
  | [] => Ok df
  | c :: labels' => df' <- coerce to_numeric df c ;; coerce_numeric df' labels'
  end.

(** [for c in labels: if c not in df.columns: df[c] = None]. *)
Fixpoint fill_missing (df : DataFrame) (labels : list string) : DataFrame :=
  match labels with
  | [] => df
  | c :: labels' =>
      fill_missing (if has_column df c then df else add_none_column df c) labels'
  end.

(** [load_data] from the rows [ws.get_all_values()] returned. *)
Definition load_data (values : list (list string)) : result DataFrame :=
  if match values with [] => true | _ => false end || (List.length values <? 2)%nat
  then Ok {| columns := cols; rows := [] |}
  else
    let header := hd [] values in
    let rows := tl values in
    df <- frame_of rows header ;;
    df <- coerce to_datetime df "timestamp" ;;
    df <- coerce_numeric df ["mood"; "sleep_hours"; "focus"] ;;
    let df := fill_missing df cols in
    select df cols.

End Load.

(** ** The sidebar period and the filter block (lines 88-93 and 101-113) *)

(** A column read as a [Series] of cells.  The filters build one boolean
    per row from it; a label carried by several columns gives a sub-frame
    instead, which is outside what is modelled here and answered by an
    error. *)
Definition series (df : DataFrame) (label : string) : result (list cell) :=
  s <- getitem df label ;;
  match s with
  | Series vs => Ok vs
  | SubFrame _ => Raise (ValueError "cannot reindex on an axis with duplicate labels")
  end.

(** [s.isin(allowed)] on one cell, for a list of strings. *)
Definition isin (allowed : list string) (c : cell) : bool :=
  match c with
  | Str s => existsb (String.eqb s) allowed
  | _ => false
  end.

(** [filtered[filtered[label].isin(allowed)]]. *)
Definition filter_isin (df : DataFrame) (label : string) (allowed : list string)
  : result DataFrame :=
  vs <- series df label ;;
  Ok {| columns := columns df; rows := keep (map (isin allowed) vs) (rows df) |}.

Definition datetimelike (c : cell) : bool :=
  match c with
  | Time _ | NaT => true
  | _ => false
  end.

(** [s.dt.date]: the day of each time, nothing for a missing time; the
    accessor exists on a column of times only. *)
Definition dt_date (vs : list cell) : result (list (option Z)) :=
  if forallb datetimelike vs then
    Ok (map (fun c => match c with
                      | Time t => Some (ts_date t)
                      | _ => None
                      end) vs)
  else Raise (AttributeError "Can only use .dt accessor with datetimelike values").

(** [(d >= start) & (d <= end)] on one element: a missing time compares
    false. *)
Definition in_range (start end_ : Z) (d : option Z) : bool :=
  match d with
  | Some d => (d >=? start) && (d <=? end_)
  | None => false
  end.

(** Lines 88-93: [date_range] is what the date widget returns ([picked], a
    tuple of up to two days) when some timestamp of the loaded table is
    present, and [None] otherwise. *)
Definition date_range_of (df : DataFrame) (picked : list Z)
  : result (option (list Z)) :=
  ts <- series df "timestamp" ;;
  Ok (if existsb notna ts then Some picked else None).

(** Lines 101-113.  [date_range] is [None] or a tuple of days. *)
Definition apply_filters (df : DataFrame) (org_filter role_filter : list string)
    (date_range : option (list Z)) : result DataFrame :=
  let filtered := df in
  filtered <- match org_filter with
              | [] => Ok filtered
              | _ => filter_isin filtered "organization" org_filter
              end ;;
  filtered <- match role_filter with
              | [] => Ok filtered
              | _ => filter_isin filtered "user_role" role_filter
              end ;;
  match date_range with
  | Some [start; end_] =>
      ts <- series filtered "timestamp" ;;
      if existsb notna ts then
        dates <- dt_date ts ;;
        Ok {| columns := columns filtered;
              rows := keep (map (in_range start end_) dates) (rows filtered) |}
      else Ok filtered
  | _ => Ok filtered
  end.

(** ** Columns of a table and of the sheet *)



(** ** The choices of the sidebar (lines 82-86) *)

(** [s.dropna()] on a column of texts and [None]. *)
Fixpoint dropna (texts : list (option string)) : list string :=
  match texts with
  | [] => []
  | Some s :: texts' => s :: dropna texts'
  | None :: texts' => dropna texts'
  end.

(** [s.unique()]: each text once, in the order of first appearance. *)
Fixpoint unique (l : list string) : list string :=
  match l with
  | [] => []
  | x :: l' => x :: filter (fun y => negb (String.eqb x y)) (unique l')
  end.

(** [sorted(l)] on texts, built by insertion: Python compares two texts
    code point by code point, which is the byte order of their UTF-8
    encodings. *)
Fixpoint insert_sorted (s : string) (l : list string) : list string :=
  match l with
  | [] => [s]
  | x :: l' => if String.leb s x then s :: l else x :: insert_sorted s l'
  end.

Definition sorted (l : list string) : list string :=
  fold_right insert_sorted [] l.

(** [str(x).strip() == ""] for a text [x]: every character is white space.
    The white space of [str.strip] is U+0009..U+000D, U+001C..U+0020, U+0085,
    U+00A0, U+1680, U+2000..U+200A, U+2028, U+2029, U+202F, U+205F and
    U+3000, read here in their UTF-8 encodings. *)
Definition space_byte (c : ascii) : bool :=
  let n := N_of_ascii c in
  ((9 <=? n) && (n <=? 13) || (28 <=? n) && (n <=? 32))%N.

Fixpoint blank (s : string) : bool :=
  match s with
  | EmptyString => true
  | String c s' =>
      if space_byte c then blank s'
      else
        match N_of_ascii c, s' with
        | 194%N, String d s'' =>
            let d := N_of_ascii d in
            ((d =? 133) || (d =? 160))%N && blank s''
        | 225%N, String d (String e s'') =>
            let d := N_of_ascii d in
            let e := N_of_ascii e in
            ((d =? 154) && (e =? 128))%N && blank s''
        | 226%N, String d (String e s'') =>
            let d := N_of_ascii d in
            let e := N_of_ascii e in
            ((d =? 128) && ((128 <=? e) && (e <=? 138) || (e =? 168)
                            || (e =? 169) || (e =? 175))
             || (d =? 129) && (e =? 159))%N && blank s''
        | 227%N, String d (String e s'') =>
            let d := N_of_ascii d in
            let e := N_of_ascii e in
            ((d =? 128) && (e =? 128))%N && blank s''
        | _, _ => false
        end
  end.

(** [sorted([x for x in s.dropna().unique().tolist() if str(x).strip() != ""])]
    for a column of texts. *)
Definition choices (texts : list (option string)) : list string :=
  sorted (filter (fun x => negb (blank x)) (unique (dropna texts))).


Definition roles (df : DataFrame) : result (list string) :=
  vs <- series df "user_role" ;; Ok (choices (map text_of vs)).



End Collecte.

(* ================================================================= *)
(** * The reference formulas of the specification *)

Module Reference.

(** The three workload values and the three conflict values, with their
    severity weights. *)
Inductive workload_level : Type := Low | Medium | High.
Inductive conflict_level : Type := NoConflict | Mild | Severe.

Definition workload_weight (w : workload_level) : Z :=
  match w with Low => 1 | Medium => 3 | High => 5 end.

Definition conflict_weight (c : conflict_level) : Z :=
  match c with NoConflict => 1 | Mild => 3 | Severe => 5 end.

(** The values the form offers for them. *)
Definition workload_label (w : workload_level) : string :=
  match w with Low => "Faible" | Medium => "Moyenne" | High => "Élevée" end.

Definition conflict_label (c : conflict_level) : string :=
  match c with
  | NoConflict => "Non"
  | Mild => "Oui (léger)"
  | Severe => "Oui (important)"
  end.

Definition clamp (x : Z) : Z := Z.max 0 (Z.min 100 x).

(** [stress = 12w + 10(6-mood) + 6(8-sleep_hours) + 6c + 8(6-focus)]. *)
Definition stress (w mood sleep_hours c focus : Z) : Z :=
  clamp (12 * w + 10 * (6 - mood) + 6 * (8 - sleep_hours) + 6 * c
         + 8 * (6 - focus)).

(** [motivation = 14 mood + 10 focus + 6 sleep_hours - 8w - 6c]. *)
Definition motivation (w mood sleep_hours c focus : Z) : Z :=
  clamp (14 * mood + 10 * focus + 6 * sleep_hours - 8 * w - 6 * c).

(** The integer nearest to a rational, the even one at a tie. *)
Definition nearest (q : Q) : Z :=
  let f := Qfloor q in
  match (q - inject_Z f ?= 1 # 2)%Q with
  | Lt => f
  | Gt => f + 1
  | Eq => if Z.even f then f else f + 1
  end.

(** [risk = round(0.6 stress + 0.4 (100 - motivation))], over the
    rationals, then [min(100, risk + 10)] under the keyword flag. *)
Definition weighted (stress motivation : Z) : Q :=
  ((6 # 10) * inject_Z stress + (4 # 10) * inject_Z (100 - motivation))%Q.

Definition risk (stress motivation : Z) (keyword_flag : bool) : Z :=
  let r := clamp (nearest (weighted stress motivation)) in
  if keyword_flag then Z.min 100 (r + 10) else r.

(** The three risk bands and their thresholds. *)
Inductive band : Type := BandLow | BandModerate | BandHigh.

Definition band_of (risk : Z) : band :=
  if 70 <=? risk then BandHigh
  else if 40 <=? risk then BandModerate
  else BandLow.

(** The label the program prints for a band. *)
Definition band_label (b : band) : string :=
  match b with
  | BandHigh => "Élevé"
  | BandModerate => "Modéré"
  | BandLow => "Faible"
  end.

(** The filter criteria on one record of a loaded table, whose columns are
    [Collecte.cols]: the timestamp is the cell 0, the organization the
    cell 1 and the role the cell 2. *)
Definition timestamp_of (r : list Collecte.cell) : Collecte.cell :=
  Collecte.cell_at 0 r.

Definition has_timestamp (r : list Collecte.cell) : bool :=
  Collecte.notna (timestamp_of r).

(** The organization is among the allowed ones, if any is given, and so is
    the role. *)
Definition passes (organizations roles : list string) (r : list Collecte.cell)
  : bool :=
  match organizations with
  | [] => true
  | _ => Collecte.isin organizations (Collecte.cell_at 1 r)
  end
  && match roles with
     | [] => true
     | _ => Collecte.isin roles (Collecte.cell_at 2 r)
     end.

(** The record has a timestamp and its day lies in the inclusive range. *)
Definition dated (first last : Z) (r : list Collecte.cell) : bool :=
  match timestamp_of r with
  | Collecte.Time t =>
      (first <=? Collecte.ts_date t) && (Collecte.ts_date t <=? last)
  | _ => false
  end.

End Reference.

(* ================================================================= *)
(** * Checks by computation *)

Module Check.

(** The integers 0..100. *)
Definition upto100 : list Z := map Z.of_nat (seq 0 101).

Definition returns (r : result Z) (z : Z) : bool :=
  match r with
  | Ok v => v =? z
  | Raise _ => false
  end.

(** The binary64 computation of the program and the rational formula give
    the same integer at [stress] and [motivation]. *)
Definition risk_agrees (stress motivation : Z) : bool :=
  returns (Appl.raw_risk stress motivation)
          (Reference.nearest (Reference.weighted stress motivation)).

Definition risk_table : bool :=
  forallb (fun s => forallb (risk_agrees s) upto100) upto100.

(** A byte that [lower] leaves as it is wherever it stands. *)
Definition fixed_by_lower (c : ascii) : bool :=
  Ascii.eqb (lower_byte false c) c && Ascii.eqb (lower_byte true c) c.

Definition lower_stable (k : string) : bool :=
  forallb fixed_by_lower (list_ascii_of_string k).

(** ** A sample sheet *)

(** A parser of times that knows one text, and a parser of numbers that
    reads decimal digits: enough to run [load_data] on [sample_sheet]. *)
Definition sample_datetimes (texts : list (option string))
  : list (option Collecte.timestamp) :=
  map (fun t => match t with
                | Some s =>
                    if String.eqb s "2025-01-15 09:30"
                    then Some {| Collecte.ts_date := 739266;
                                 Collecte.ts_time := 34200 |}
                    else None
                | None => None
                end) texts.

Definition sample_numbers (texts : list (option string))
  : list (option Collecte.number) :=
  map (fun t => match t with
                | Some s =>
                    option_map (fun u => Collecte.Int (Z.of_uint u))
                               (NilZero.uint_of_string s)
                | None => None
                end) texts.

(** Two check-ins, the second one with an empty timestamp cell. *)
Definition sample_sheet : list (list string) :=
  [ Collecte.cols;
    ["2025-01-15 09:30"; "Ventes"; "Manager"; "4"; "Moyenne"; "7"; "4";
     "Non"; "RAS"];
    [""; "Support"; "Collaborateur"; "2"; "Élevée"; "5"; "2"; "Oui (léger)";
     "fatigue"] ].

Definition row_ventes : list Collecte.cell :=
  [ Collecte.Time {| Collecte.ts_date := 739266; Collecte.ts_time := 34200 |};
    Collecte.Str "Ventes"; Collecte.Str "Manager";
    Collecte.Num (Collecte.Int 4); Collecte.Str "Moyenne";
    Collecte.Num (Collecte.Int 7); Collecte.Num (Collecte.Int 4);
    Collecte.Str "Non"; Collecte.Str "RAS" ].

Definition row_support : list Collecte.cell :=
  [ Collecte.NaT; Collecte.Str "Support"; Collecte.Str "Collaborateur";
    Collecte.Num (Collecte.Int 2); Collecte.Str "Élevée";
    Collecte.Num (Collecte.Int 5); Collecte.Num (Collecte.Int 2);
    Collecte.Str "Oui (léger)"; Collecte.Str "fatigue" ].

Definition sample_table : Collecte.DataFrame :=
  {| Collecte.columns := Collecte.cols;
     Collecte.rows := [row_ventes; row_support] |}.

End Check.

(* ================================================================= *)
(** * Notions used to state properties of the two programs *)

Module Notions.

(** ** The check-in form *)

(** The weighted risk in integers: [(6 stress + 4 (100 - motivation)) / 10]
    rounded half up. *)
Definition risk_integer (stress motivation : Z) : Z :=
  (6 * stress + 4 * (100 - motivation) + 5) / 10.

(** The adjustment of line 52: ten more, up to 100, under the keyword
    flag. *)
Definition bumped (base : Z) (flag : bool) : Z :=
  if flag then Z.min 100 (base + 10) else base.

(** The rounding to nearest even of the rational formula and the integer
    formula give the same integer at [stress] and [motivation]. *)
Definition integer_agrees (stress motivation : Z) : bool :=
  Reference.nearest (Reference.weighted stress motivation)
  =? risk_integer stress motivation.

Definition integer_table : bool :=
  forallb (fun s => forallb (integer_agrees s) Check.upto100) Check.upto100.

(** What holds of an entry of the history: its workload and conflict
    values are recognized ones, its three scores lie in 0..100, its risk is
    the integer formula on its stress and motivation, adjusted under its
    flag, and computing the scores again from its indicators and its
    comment gives its stress and motivation and a risk at most ten below
    its own. *)
Definition consistent (e : Appl.entry) : Prop :=
  In (Appl.h_workload e) ["Faible"; "Moyenne"; "Élevée"]
  /\ In (Appl.h_conflicts e) ["Non"; "Oui (léger)"; "Oui (important)"]
  /\ 0 <= Appl.h_stress e <= 100
  /\ 0 <= Appl.h_motivation e <= 100
  /\ 0 <= Appl.h_risk e <= 100
  /\ Appl.h_risk e
     = bumped (risk_integer (Appl.h_stress e) (Appl.h_motivation e))
              (Appl.h_flag_keywords e)
  /\ exists risk flag,
       Appl.compute_scores (Appl.h_mood e) (Appl.h_workload e) (Appl.h_sleep e)
                           (Appl.h_focus e) (Appl.h_conflicts e)
                           (Some (Appl.h_comment e))
       = Ok (Appl.h_stress e, Appl.h_motivation e, risk, flag)
       /\ risk <= Appl.h_risk e <= risk + 10
       /\ (flag = true -> Appl.h_flag_keywords e = true).

(** A form as a collaborator may submit it. *)
Definition sample_form : Appl.form :=
  {| Appl.org := "Équipe projet"; Appl.role := "Collaborateur";
     Appl.anonym := true; Appl.mood := 2; Appl.workload := "Élevée";
     Appl.sleep := 5; Appl.focus := 2; Appl.conflicts := "Oui (léger)";
     Appl.comment := Some "Je me sens sous pression"; Appl.consent := true |}.

(** ** The consultation dashboard *)

(** The records shown for given criteria: those that pass the organization
    and role filters, narrowed to the period when both of its bounds are
    given and one of them at least has a timestamp. *)
Definition shown (organizations roles : list string)
    (date_range : option (list Z)) (rs : list (list Collecte.cell))
  : list (list Collecte.cell) :=
  let survivors := filter (Reference.passes organizations roles) rs in
  match date_range with
  | Some [first; last] =>
      if existsb Reference.has_timestamp survivors
      then filter (Reference.dated first last) survivors
      else survivors
  | _ => survivors
  end.

(** Every text of the list is below the ones that follow it. *)
Definition strictly_sorted (l : list string) : Prop :=
  Sorted.StronglySorted (fun a b => String.ltb a b = true) l.


End Notions.

(* ================================================================= *)
(** * Properties of the Python values *)

Module PyFacts.

Lemma clamp100_bounds (x : Z) : 0 <= clamp100 x <= 100.
Proof. unfold clamp100. lia. Qed.

Lemma clamp100_fixed (x : Z) : 0 <= x <= 100 -> clamp100 x = x.
Proof. unfold clamp100. lia. Qed.

Lemma in_upto100 (z : Z) : 0 <= z <= 100 -> In z Check.upto100.
Proof.
  intros Hz. unfold Check.upto100.
  rewrite <- (Z2Nat.id z) by lia.
  apply in_map. apply in_seq. lia.
Qed.

(** An occurrence found by [str_in] splits the string around the term, and
    conversely. *)
Lemma starts_with_app (k s : string) :
  starts_with k s = true -> exists t, s = (k ++ t)%string.
Proof.
  revert s. induction k as [|a k IH]; intros s H.
  - exists s. reflexivity.
  - destruct s as [|b s]; simpl in H; [discriminate|].
    apply andb_true_iff in H. destruct H as [Hab H].
    apply Ascii.eqb_eq in Hab. subst b.
    destruct (IH s H) as [t ->]. exists t. reflexivity.
Qed.

Lemma app_starts_with (k t : string) : starts_with k (k ++ t)%string = true.
Proof.
  induction k as [|a k IH]; simpl.
  - reflexivity.
  - rewrite Ascii.eqb_refl. exact IH.
Qed.

Lemma str_in_here (k s : string) : starts_with k s = true -> str_in k s = true.
Proof. intros H. destruct s; simpl; rewrite H; reflexivity. Qed.

Lemma str_in_split (k s : string) :
  str_in k s = true <-> exists u t, s = (u ++ k ++ t)%string.
Proof.
  split.
  - induction s as [|b s IH]; simpl; intros H.
    + rewrite orb_false_r in H. destruct (starts_with_app _ _ H) as [t Ht].
      exists EmptyString, t. exact Ht.
    + apply orb_true_iff in H. destruct H as [H|H].
      * destruct (starts_with_app _ _ H) as [t Ht].
        exists EmptyString, t. exact Ht.
      * destruct (IH H) as (u & t & ->). exists (String b u), t. reflexivity.
  - intros (u & t & ->). induction u as [|b u IH].
    + cbn [append]. apply str_in_here, app_starts_with.
    + simpl. rewrite IH. apply orb_true_r.
Qed.

(** [lower] keeps an occurrence of a term made of bytes it leaves alone. *)
Lemma lower_stable_cons (a : ascii) (k : string) :
  Check.lower_stable (String a k) = true ->
  (forall b, lower_byte b a = a) /\ Check.lower_stable k = true.
Proof.
  unfold Check.lower_stable. simpl. intros H.
  apply andb_true_iff in H. destruct H as [Ha Hk]. split; [|exact Hk].
  unfold Check.fixed_by_lower in Ha. apply andb_true_iff in Ha.
  destruct Ha as [H0 H1]. apply Ascii.eqb_eq in H0, H1.
  intros [|]; assumption.
Qed.

Lemma starts_with_lower_from (k s : string) (b : bool) :
  Check.lower_stable k = true ->
  starts_with k s = true -> starts_with k (lower_from b s) = true.
Proof.
  revert s b. induction k as [|a k IH]; intros s b Hk H.
  - reflexivity.
  - destruct s as [|c s]; simpl in H; [discriminate|].
    apply andb_true_iff in H. destruct H as [Hac H].
    apply Ascii.eqb_eq in Hac. subst c.
    apply lower_stable_cons in Hk. destruct Hk as [Ha Hk].
    simpl. rewrite Ha, Ascii.eqb_refl. apply IH; assumption.
Qed.

Lemma str_in_lower_from (k s : string) (b : bool) :
  Check.lower_stable k = true ->
  str_in k s = true -> str_in k (lower_from b s) = true.
Proof.
  intros Hk. revert b. induction s as [|c s IH]; intros b H.
  - exact H.
  - simpl in H. apply orb_true_iff in H. destruct H as [H|H].
    + apply str_in_here, starts_with_lower_from; assumption.
    + simpl. rewrite (IH _ H). apply orb_true_r.
Qed.

Lemma str_in_lower (k s : string) :
  Check.lower_stable k = true -> str_in k s = true -> str_in k (lower s) = true.
Proof. apply str_in_lower_from. Qed.

End PyFacts.

(* ================================================================= *)
(** * Properties of the check-in form *)

Module ApplFacts.

Import Appl Reference.

(** ** The risk formula in binary64 and over the rationals *)

Lemma risk_table_ok : Check.risk_table = true.
Proof. vm_compute. reflexivity. Qed.

Lemma raw_risk_exact (s m : Z) :
  0 <= s <= 100 -> 0 <= m <= 100 ->
  raw_risk s m = Ok (nearest (weighted s m)).
Proof.
  intros Hs Hm.
  pose proof risk_table_ok as H. unfold Check.risk_table in H.
  rewrite forallb_forall in H.
  specialize (H s (PyFacts.in_upto100 s Hs)).
  rewrite forallb_forall in H.
  specialize (H m (PyFacts.in_upto100 m Hm)).
  unfold Check.risk_agrees, Check.returns in H.
  destruct (raw_risk s m) as [v|e]; [|discriminate].
  apply Z.eqb_eq in H. congruence.
Qed.

(** ** The two dicts *)

Lemma getitem_workload (w : workload_level) :
  getitem workload_map (workload_label w) = Ok (workload_weight w).
Proof. destruct w; reflexivity. Qed.

Lemma getitem_conflict (c : conflict_level) :
  getitem conflict_map (conflict_label c) = Ok (conflict_weight c).
Proof. destruct c; reflexivity. Qed.

Lemma getitem_absent {V : Type} (d : list (string * V)) (k : string) :
  ~ In k (map fst d) -> getitem d k = Raise (KeyError k).
Proof.
  induction d as [|[k' v] d IH]; simpl; intros H.
  - reflexivity.
  - destruct (String.eqb_spec k' k) as [->|_].
    + exfalso. apply H. left. reflexivity.
    + apply IH. intros Hin. apply H. right. exact Hin.
Qed.

Lemma getitem_present {V : Type} (d : list (string * V)) (k : string) :
  In k (map fst d) -> exists v, getitem d k = Ok v.
Proof.
  induction d as [|[k' v] d IH]; simpl; intros H.
  - contradiction.
  - destruct (String.eqb_spec k' k) as [->|Hne].
    + exists v. reflexivity.
    + destruct H as [H|H]; [contradiction|]. apply IH. exact H.
Qed.

(** ** [compute_scores] against the reference formulas *)

(** On the recognized workload and conflict values [compute_scores] returns
    the reference scores, whatever the integers. *)
Lemma compute_scores_formulas (mood : Z) (w : workload_level)
    (sleep_hours focus : Z) (c : conflict_level) (comment : option string) :
  compute_scores mood (workload_label w) sleep_hours focus (conflict_label c)
                 comment
  = let flag := keyword_hit_of (lower (or_empty comment)) in
    let s := stress (workload_weight w) mood sleep_hours (conflict_weight c)
                    focus in
    let m := motivation (workload_weight w) mood sleep_hours
                        (conflict_weight c) focus in
    Ok (s, m, risk s m flag, flag).
Proof.
  unfold compute_scores.
  rewrite getitem_workload, getitem_conflict. cbn [bind].
  set (s := clamp100 _). set (m := clamp100 _).
  assert (Hs : s = stress (workload_weight w) mood sleep_hours
                          (conflict_weight c) focus).
  { unfold s, stress, clamp100, clamp. f_equal. f_equal. ring. }
  assert (Hm : m = motivation (workload_weight w) mood sleep_hours
                              (conflict_weight c) focus).
  { unfold m, motivation, clamp100, clamp. f_equal. f_equal. ring. }
  rewrite (raw_risk_exact s m) by (apply PyFacts.clamp100_bounds).
  cbn [bind]. rewrite <- Hs, <- Hm. reflexivity.
Qed.

Lemma risk_bounds (s m : Z) (flag : bool) : 0 <= risk s m flag <= 100.
Proof. unfold risk, clamp. destruct flag; lia. Qed.

Lemma has_key_In {V : Type} (d : list (string * V)) (k : string) :
  has_key d k = true <-> In k (map fst d).
Proof.
  unfold has_key. rewrite existsb_exists. split.
  - intros (e & He & Hk). apply String.eqb_eq in Hk. subst k.
    apply in_map. exact He.
  - intros H. apply in_map_iff in H. destruct H as (e & <- & He).
    exists e. split; [exact He | apply String.eqb_refl].
Qed.

Lemma keyword_hit_of_spec (text : string) :
  keyword_hit_of text = true <->
  exists k, In k red_flags /\ str_in k text = true.
Proof. unfold keyword_hit_of. apply existsb_exists. Qed.

(** ** Claims on [compute_scores] *)

(** C1.  On every valid input (mood and focus in 1..5, sleep hours in 0..10,
    workload and conflicts among their three values, any comment)
    [compute_scores] returns the reference stress, motivation and risk: the
    clamped linear formulas with weights 1, 3, 5, the risk rounded from
    0.6 stress + 0.4 (100 - motivation) and raised by 10, capped at 100,
    under the keyword flag.  In particular mood 5, low workload, 8 hours,
    focus 5, no conflict and an empty comment give (36, 100, 22, false). *)
Theorem compute_scores_reference :
  forall (mood : Z) (w : workload_level) (sleep_hours focus : Z)
         (c : conflict_level) (comment : option string),
  1 <= mood <= 5 -> 0 <= sleep_hours <= 10 -> 1 <= focus <= 5 ->
  (let flag := keyword_hit_of (lower (or_empty comment)) in
   let s := stress (workload_weight w) mood sleep_hours (conflict_weight c)
                   focus in
   let m := motivation (workload_weight w) mood sleep_hours
                       (conflict_weight c) focus in
   compute_scores mood (workload_label w) sleep_hours focus (conflict_label c)
                  comment
   = Ok (s, m, risk s m flag, flag))
  /\ compute_scores 5 "Faible" 8 5 "Non" (Some "") = Ok (36, 100, 22, false).
Proof.
  intros mood w sleep_hours focus c comment _ _ _. split.
  - apply compute_scores_formulas.
  - exact (compute_scores_formulas 5 Low 8 5 NoConflict (Some "")).
Qed.

Lemma compute_scores_reference_example :
  compute_scores 3 "Moyenne" 7 3 "Oui (léger)" (Some "RAS")
  = Ok (100, 72, 71, false).
Proof.
  exact (proj1 (compute_scores_reference 3 Medium 7 3 Mild (Some "RAS")
                  ltac:(lia) ltac:(lia) ltac:(lia))).
Defined.

(** C2.  On every valid input the stress, the motivation and the risk
    returned by [compute_scores] lie in 0..100, the risk also after the
    keyword adjustment. *)
Theorem compute_scores_range :
  forall (mood : Z) (w : workload_level) (sleep_hours focus : Z)
         (c : conflict_level) (comment : option string),
  1 <= mood <= 5 -> 0 <= sleep_hours <= 10 -> 1 <= focus <= 5 ->
  exists (stress motivation risk : Z) (keyword_hit : bool),
    compute_scores mood (workload_label w) sleep_hours focus (conflict_label c)
                   comment
    = Ok (stress, motivation, risk, keyword_hit)
    /\ 0 <= stress <= 100 /\ 0 <= motivation <= 100 /\ 0 <= risk <= 100.
Proof.
  intros mood w sleep_hours focus c comment _ _ _.
  rewrite compute_scores_formulas. cbv zeta.
  eexists _, _, _, _. split; [reflexivity|].
  repeat split; try apply risk_bounds; unfold stress, motivation, clamp; lia.
Qed.

Lemma compute_scores_range_example :
  exists (stress motivation risk : Z) (keyword_hit : bool),
    compute_scores 1 "Élevée" 0 1 "Oui (important)" (Some "Burnout total")
    = Ok (stress, motivation, risk, keyword_hit)
    /\ 0 <= stress <= 100 /\ 0 <= motivation <= 100 /\ 0 <= risk <= 100.
Proof.
  exact (compute_scores_range 1 High 0 1 Severe (Some "Burnout total")
           ltac:(lia) ltac:(lia) ltac:(lia)).
Defined.

(** C4.  On every valid input a comment that contains "overload" is
    flagged, and its risk is the risk of the same indicators with an empty
    comment plus 10, capped at 100; the other scores are the same.  The
    flag is set exactly when the lower-cased comment contains one of the
    terms of [red_flags] as a substring, whatever surrounds it: capitals
    are flagged as small letters are ("OVERLOAD", "ÉPUISÉ"), and so is a
    term inside a longer word ("mal" in "normal"). *)
Theorem overload_raises_risk :
  forall (mood : Z) (w : workload_level) (sleep_hours focus : Z)
         (c : conflict_level) (comment : string) (other : option string),
  1 <= mood <= 5 -> 0 <= sleep_hours <= 10 -> 1 <= focus <= 5 ->
  str_in "overload" comment = true ->
  (exists stress motivation risk : Z,
     compute_scores mood (workload_label w) sleep_hours focus
                    (conflict_label c) (Some "")
     = Ok (stress, motivation, risk, false)
     /\ compute_scores mood (workload_label w) sleep_hours focus
                       (conflict_label c) (Some comment)
        = Ok (stress, motivation, Z.min 100 (risk + 10), true))
  /\ (exists (stress motivation risk : Z) (keyword_hit : bool),
        compute_scores mood (workload_label w) sleep_hours focus
                       (conflict_label c) other
        = Ok (stress, motivation, risk, keyword_hit)
        /\ (keyword_hit = true <->
            exists k, In k red_flags
                      /\ str_in k (lower (or_empty other)) = true))
  /\ (forall text : string,
        In text ["OVERLOAD"; "Tout est normal"; "ÉPUISÉ"] ->
        exists stress motivation risk : Z,
          compute_scores mood (workload_label w) sleep_hours focus
                         (conflict_label c) (Some text)
          = Ok (stress, motivation, risk, true)).
Proof.
  intros mood w sleep_hours focus c comment other _ _ _ Hin.
  split; [|split]; cycle 2.
  { intros text Htext. rewrite compute_scores_formulas. cbv zeta.
    assert (Hflag : keyword_hit_of (lower (or_empty (Some text))) = true).
    { destruct Htext as [<-|[<-|[<-|[]]]]; vm_compute; reflexivity. }
    rewrite Hflag. eexists _, _, _. reflexivity. }
  - rewrite !compute_scores_formulas. cbv zeta.
    assert (Hflag : keyword_hit_of (lower (or_empty (Some comment))) = true).
    { apply keyword_hit_of_spec. exists "overload". split.
      - unfold red_flags. simpl. tauto.
      - apply PyFacts.str_in_lower; [reflexivity | exact Hin]. }
    rewrite Hflag.
    change (keyword_hit_of (lower (or_empty (Some "")))) with false.
    eexists _, _, _. split; reflexivity.
  - rewrite compute_scores_formulas. cbv zeta.
    eexists _, _, _, _. split; [reflexivity|].
    apply keyword_hit_of_spec.
Qed.

Lemma overload_raises_risk_example :
  compute_scores 4 "Moyenne" 6 4 "Non" (Some "") = Ok (90, 100, 54, false)
  /\ compute_scores 4 "Moyenne" 6 4 "Non" (Some "Work overload again")
     = Ok (90, 100, 64, true).
Proof.
  destruct (overload_raises_risk 4 Medium 6 4 NoConflict "Work overload again"
              None ltac:(lia) ltac:(lia) ltac:(lia) eq_refl)
    as [(s & m & r & H0 & H1) _].
  assert (E : compute_scores 4 "Moyenne" 6 4 "Non" (Some "")
              = Ok (90, 100, 54, false)) by (vm_compute; reflexivity).
  change (compute_scores 4 (workload_label Medium) 6 4
                         (conflict_label NoConflict) (Some "")) with
    (compute_scores 4 "Moyenne" 6 4 "Non" (Some "")) in H0.
  rewrite E in H0. injection H0 as <- <- <-. split; [exact E | exact H1].
Defined.

(** C9.  A workload outside "Faible", "Moyenne", "Élevée", or a conflicts
    value outside "Non", "Oui (léger)", "Oui (important)", makes
    [compute_scores] raise [KeyError] on the first of the two that is not
    recognized; no score is returned and no default weight is used. *)
Theorem unknown_value_raises_KeyError :
  forall (mood : Z) (workload : string) (sleep focus : Z) (conflicts : string)
         (comment : option string),
  ~ In workload ["Faible"; "Moyenne"; "Élevée"]
  \/ ~ In conflicts ["Non"; "Oui (léger)"; "Oui (important)"] ->
  compute_scores mood workload sleep focus conflicts comment
  = Raise (KeyError (if has_key workload_map workload then conflicts
                     else workload)).
Proof.
  intros mood workload sleep focus conflicts comment H.
  unfold compute_scores.
  destruct (has_key workload_map workload) eqn:Hw.
  - apply has_key_In in Hw.
    destruct H as [H|H]; [contradiction|].
    destruct (getitem_present _ _ Hw) as [v ->]. cbn [bind].
    rewrite (getitem_absent conflict_map conflicts H). reflexivity.
  - assert (Hn : ~ In workload (map fst workload_map)).
    { intros Hin. apply has_key_In in Hin. congruence. }
    rewrite (getitem_absent workload_map workload Hn). reflexivity.
Qed.

Lemma unknown_value_raises_KeyError_example :
  compute_scores 3 "Faible" 7 3 "Peut-être" None
  = Raise (KeyError "Peut-être").
Proof.
  refine (unknown_value_raises_KeyError 3 "Faible" 7 3 "Peut-être" None _).
  right. simpl. intros [H|[H|[H|H]]]; try discriminate H. exact H.
Defined.

(** ** Claims on [generate_recommendations] *)

Lemma risk_level_band (risk : Z) : risk_level risk = band_label (band_of risk).
Proof.
  unfold risk_level, band_of. rewrite !Z.geb_leb.
  destruct (70 <=? risk); [reflexivity|].
  destruct (40 <=? risk); reflexivity.
Qed.

(** C3.  [generate_recommendations] chooses the band from [risk] alone:
    the summary names the band of [risk], which is the high one from 70 on,
    the moderate one from 40 to 69 and the low one below 40, and the whole
    result is the same whatever the stress and the motivation passed.  So
    70 is high, 69 and 40 are moderate and 39 is low, for every stress,
    motivation and keyword flag. *)
Theorem band_from_risk_only :
  forall (stress motivation risk : Z) (keyword_hit : bool),
  summary_of (generate_recommendations stress motivation risk keyword_hit)
  = ("Niveau de risque : **" ++ band_label (band_of risk) ++ "** (score "
     ++ str_of_int risk ++ "/100).")%string
  /\ generate_recommendations stress motivation risk keyword_hit
     = generate_recommendations 0 0 risk keyword_hit
  /\ (70 <= risk -> band_of risk = BandHigh)
  /\ (40 <= risk < 70 -> band_of risk = BandModerate)
  /\ (risk < 40 -> band_of risk = BandLow)
  /\ summary_of (generate_recommendations stress motivation 70 keyword_hit)
     = "Niveau de risque : **Élevé** (score 70/100)."
  /\ summary_of (generate_recommendations stress motivation 69 keyword_hit)
     = "Niveau de risque : **Modéré** (score 69/100)."
  /\ summary_of (generate_recommendations stress motivation 40 keyword_hit)
     = "Niveau de risque : **Modéré** (score 40/100)."
  /\ summary_of (generate_recommendations stress motivation 39 keyword_hit)
     = "Niveau de risque : **Faible** (score 39/100).".
Proof.
  intros stress motivation risk keyword_hit.
  split; [|split; [|split; [|split; [|split]]]].
  - rewrite <- risk_level_band.
    unfold generate_recommendations, risk_level.
    destruct (risk >=? 70); [|destruct (risk >=? 40)];
      destruct keyword_hit; reflexivity.
  - reflexivity.
  - intros H. unfold band_of.
    destruct (70 <=? risk) eqn:E; [reflexivity|]. apply Z.leb_gt in E. lia.
  - intros H. unfold band_of.
    destruct (70 <=? risk) eqn:E; [apply Z.leb_le in E; lia|].
    destruct (40 <=? risk) eqn:E'; [reflexivity|]. apply Z.leb_gt in E'. lia.
  - intros H. unfold band_of.
    destruct (70 <=? risk) eqn:E; [apply Z.leb_le in E; lia|].
    destruct (40 <=? risk) eqn:E'; [apply Z.leb_le in E'; lia|]. reflexivity.
  - repeat split; destruct keyword_hit; reflexivity.
Qed.

(** C10.  Whatever the integers and the flag, both action lists returned by
    [generate_recommendations] are non-empty.  In the high band the manager
    list under the keyword flag is the list without the flag followed by
    one more action, the keyword warning, while the team list is the
    same. *)
Theorem action_lists_nonempty :
  forall (stress motivation risk : Z) (keyword_hit : bool),
  manager_actions_of (generate_recommendations stress motivation risk keyword_hit)
  <> []
  /\ team_actions_of (generate_recommendations stress motivation risk keyword_hit)
     <> []
  /\ (70 <= risk ->
      manager_actions_of (generate_recommendations stress motivation risk true)
      = manager_actions_of (generate_recommendations stress motivation risk false)
        ++ [keyword_action]
      /\ List.length
           (manager_actions_of (generate_recommendations stress motivation risk true))
         = S (List.length
                (manager_actions_of
                   (generate_recommendations stress motivation risk false)))
      /\ team_actions_of (generate_recommendations stress motivation risk true)
         = team_actions_of (generate_recommendations stress motivation risk false)).
Proof.
  intros stress motivation risk keyword_hit.
  unfold generate_recommendations, risk_level.
  split; [|split].
  - destruct (risk >=? 70); [|destruct (risk >=? 40)];
      destruct keyword_hit; discriminate.
  - destruct (risk >=? 70); [|destruct (risk >=? 40)];
      destruct keyword_hit; discriminate.
  - intros H. assert (E : (risk >=? 70) = true) by (rewrite Z.geb_leb; lia).
    rewrite E. repeat split.
Qed.

(** ** Claim on the submission block *)

(** C8.  For a submitted check-in (consent given, workload and conflicts
    among the values of the form) one entry is appended to the history.
    With the anonymization box ticked its comment is the empty string;
    without it the comment is the text typed.  Every other field, the
    scores and the keyword flag computed from the text typed included, is
    the same in both. *)
Theorem anonymized_comment_is_empty :
  forall (now : string) (f : form) (history : list entry)
         (w : workload_level) (c : conflict_level),
  consent f = true ->
  workload f = workload_label w ->
  conflicts f = conflict_label c ->
  exists (stress motivation risk : Z) (keyword_hit : bool),
    compute_scores (mood f) (workload f) (sleep f) (focus f) (conflicts f)
                   (comment f)
    = Ok (stress, motivation, risk, keyword_hit)
    /\ (let stored (text : string) :=
          {| h_date := now; h_org := org f; h_role := role f;
             h_mood := mood f; h_workload := workload f; h_sleep := sleep f;
             h_focus := focus f; h_conflicts := conflicts f;
             h_stress := stress; h_motivation := motivation; h_risk := risk;
             h_flag_keywords := keyword_hit; h_comment := text |} in
        submit now (with_anonym true f) history = Ok (history ++ [stored ""])
        /\ submit now (with_anonym false f) history
           = Ok (history ++ [stored (or_empty (comment f))])).
Proof.
  intros now f history w c Hconsent Hw Hc.
  pose proof (compute_scores_formulas (mood f) w (sleep f) (focus f) c
                                      (comment f)) as E.
  rewrite <- Hw, <- Hc in E. cbv zeta in E.
  eexists _, _, _, _. split; [exact E|].
  cbv zeta. unfold submit. cbn [with_anonym consent mood workload sleep focus
                                conflicts comment anonym org role].
  rewrite Hconsent. cbn [negb]. rewrite E. cbn [bind]. split; reflexivity.
Qed.

Lemma anonymized_comment_is_empty_example :
  let f := {| org := "Équipe projet"; role := "Collaborateur"; anonym := true;
              mood := 2; workload := "Élevée"; sleep := 5; focus := 2;
              conflicts := "Oui (léger)";
              comment := Some "Je me sens sous pression"; consent := true |} in
  submit "2025-01-15 09:30" f []
  = Ok [ {| h_date := "2025-01-15 09:30"; h_org := "Équipe projet";
            h_role := "Collaborateur"; h_mood := 2; h_workload := "Élevée";
            h_sleep := 5; h_focus := 2; h_conflicts := "Oui (léger)";
            h_stress := 100; h_motivation := 20; h_risk := 100;
            h_flag_keywords := true; h_comment := "" |} ].
Proof.
  cbv zeta.
  destruct (anonymized_comment_is_empty "2025-01-15 09:30"
              {| org := "Équipe projet"; role := "Collaborateur";
                 anonym := true; mood := 2; workload := "Élevée"; sleep := 5;
                 focus := 2; conflicts := "Oui (léger)";
                 comment := Some "Je me sens sous pression"; consent := true |}
              [] High Mild eq_refl eq_refl eq_refl)
    as (s & m & r & k & E & Hanon & _).
  cbn [mood workload sleep focus conflicts comment] in E.
  assert (E' : compute_scores 2 "Élevée" 5 2 "Oui (léger)"
                              (Some "Je me sens sous pression")
               = Ok (100, 20, 100, true)) by (vm_compute; reflexivity).
  rewrite E' in E. injection E as <- <- <- <-. exact Hanon.
Defined.

(** ** The risk in integers *)

Import Notions.

Lemma integer_table_ok : integer_table = true.
Proof. vm_compute. reflexivity. Qed.

Lemma nearest_integer (s m : Z) :
  0 <= s <= 100 -> 0 <= m <= 100 ->
  nearest (weighted s m) = risk_integer s m.
Proof.
  intros Hs Hm. pose proof integer_table_ok as H. unfold integer_table in H.
  rewrite forallb_forall in H. specialize (H s (PyFacts.in_upto100 s Hs)).
  rewrite forallb_forall in H. specialize (H m (PyFacts.in_upto100 m Hm)).
  apply Z.eqb_eq in H. exact H.
Qed.

Lemma risk_integer_bounds (s m : Z) :
  0 <= s <= 100 -> 0 <= m <= 100 -> 0 <= risk_integer s m <= 100.
Proof.
  intros Hs Hm. unfold risk_integer. split.
  - apply Z.div_pos; lia.
  - apply Z.lt_succ_r. apply Z.div_lt_upper_bound; lia.
Qed.

Lemma risk_integer_mono (s m s' m' : Z) :
  s' <= s -> m <= m' -> risk_integer s' m' <= risk_integer s m.
Proof. intros Hs Hm. unfold risk_integer. apply Z.div_le_mono; lia. Qed.

Lemma stress_bounds (w mood sleep c focus : Z) :
  0 <= stress w mood sleep c focus <= 100.
Proof. unfold stress, clamp. lia. Qed.

Lemma motivation_bounds (w mood sleep c focus : Z) :
  0 <= motivation w mood sleep c focus <= 100.
Proof. unfold motivation, clamp. lia. Qed.

Lemma compute_scores_closed (mood : Z) (w : workload_level) (sleep focus : Z)
    (c : conflict_level) (comment : option string) :
  compute_scores mood (workload_label w) sleep focus (conflict_label c) comment
  = let s := stress (workload_weight w) mood sleep (conflict_weight c) focus in
    let m := motivation (workload_weight w) mood sleep (conflict_weight c)
                        focus in
    let flag := keyword_hit_of (lower (or_empty comment)) in
    Ok (s, m, bumped (risk_integer s m) flag, flag).
Proof.
  rewrite compute_scores_formulas. cbv zeta. unfold risk.
  rewrite nearest_integer by (apply stress_bounds || apply motivation_bounds).
  unfold clamp.
  change (Z.max 0 (Z.min 100 ?x)) with (clamp100 x).
  rewrite PyFacts.clamp100_fixed
    by (apply risk_integer_bounds; (apply stress_bounds || apply motivation_bounds)).
  reflexivity.
Qed.

(** X1.  Whatever integers it is given with recognized workload and conflict
    values, [compute_scores] returns a stress [s] and a motivation [m] in
    0..100 and the risk [(6 s + 4 (100 - m) + 5) / 10] in integer division,
    ten more (up to 100) under the keyword flag: the binary64 arithmetic and
    the rounding to even of [round] never show. *)
Theorem risk_is_integer_formula :
  forall (mood : Z) (w : workload_level) (sleep focus : Z) (c : conflict_level)
         (comment : option string),
  exists s m : Z,
    0 <= s <= 100 /\ 0 <= m <= 100
    /\ 0 <= (6 * s + 4 * (100 - m) + 5) / 10 <= 100
    /\ compute_scores mood (workload_label w) sleep focus (conflict_label c)
                      comment
       = Ok (s, m,
             (if keyword_hit_of (lower (or_empty comment))
              then Z.min 100 ((6 * s + 4 * (100 - m) + 5) / 10 + 10)
              else (6 * s + 4 * (100 - m) + 5) / 10),
             keyword_hit_of (lower (or_empty comment))).
Proof.
  intros mood w sleep focus c comment.
  rewrite compute_scores_closed. cbv zeta.
  eexists _, _. split; [apply stress_bounds|]. split; [apply motivation_bounds|].
  split; [|reflexivity].
  apply risk_integer_bounds; [apply stress_bounds | apply motivation_bounds].
Qed.

(** X2.  With the same comment, a check-in whose mood, sleep and focus are
    no lower and whose workload and conflicts are no heavier gets a stress
    no higher, a motivation no lower and a risk no higher. *)
Theorem better_indicators_lower_risk :
  forall (mood mood' : Z) (w w' : workload_level) (sleep sleep' focus focus' : Z)
         (c c' : conflict_level) (comment : option string),
  mood <= mood' -> sleep <= sleep' -> focus <= focus' ->
  workload_weight w' <= workload_weight w ->
  conflict_weight c' <= conflict_weight c ->
  exists (s m r s' m' r' : Z) (flag : bool),
    compute_scores mood (workload_label w) sleep focus (conflict_label c) comment
    = Ok (s, m, r, flag)
    /\ compute_scores mood' (workload_label w') sleep' focus' (conflict_label c')
                      comment
       = Ok (s', m', r', flag)
    /\ s' <= s /\ m <= m' /\ r' <= r.
Proof.
  intros mood mood' w w' sleep sleep' focus focus' c c' comment
         Hmood Hsleep Hfocus Hw Hc.
  rewrite !compute_scores_closed. cbv zeta.
  eexists _, _, _, _, _, _, _. split; [reflexivity|]. split; [reflexivity|].
  assert (Hs : stress (workload_weight w') mood' sleep' (conflict_weight c') focus'
               <= stress (workload_weight w) mood sleep (conflict_weight c) focus)
    by (unfold stress, clamp; lia).
  assert (Hm : motivation (workload_weight w) mood sleep (conflict_weight c) focus
               <= motivation (workload_weight w') mood' sleep' (conflict_weight c')
                             focus')
    by (unfold motivation, clamp; lia).
  split; [exact Hs|]. split; [exact Hm|].
  pose proof (risk_integer_mono _ _ _ _ Hs Hm) as Hr.
  unfold bumped. destruct (keyword_hit_of _); lia.
Qed.

Lemma better_indicators_lower_risk_example :
  exists (s m r s' m' r' : Z) (flag : bool),
    compute_scores 2 "Élevée" 5 2 "Oui (léger)" (Some "RAS") = Ok (s, m, r, flag)
    /\ compute_scores 4 "Moyenne" 7 3 "Non" (Some "RAS") = Ok (s', m', r', flag)
    /\ s' <= s /\ m <= m' /\ r' <= r.
Proof.
  exact (better_indicators_lower_risk 2 4 High Medium 5 7 2 3 Mild NoConflict
           (Some "RAS") ltac:(lia) ltac:(lia) ltac:(lia)
           ltac:(simpl; lia) ltac:(simpl; lia)).
Defined.

(** X3.  The comment changes nothing but the risk and the flag: stress and
    motivation are those of the check-in without comment, an absent comment
    and an empty one give the same scores without flag, and the risk is the
    one without comment, raised by at most ten and not at all when the
    flag is not set. *)
Theorem comment_moves_risk_only :
  forall (mood : Z) (w : workload_level) (sleep focus : Z) (c : conflict_level)
         (comment : option string),
  exists (s m r0 r : Z) (flag : bool),
    compute_scores mood (workload_label w) sleep focus (conflict_label c) None
    = Ok (s, m, r0, false)
    /\ compute_scores mood (workload_label w) sleep focus (conflict_label c)
                      (Some "")
       = Ok (s, m, r0, false)
    /\ compute_scores mood (workload_label w) sleep focus (conflict_label c)
                      comment
       = Ok (s, m, r, flag)
    /\ r0 <= r <= r0 + 10
    /\ (flag = false -> r = r0).
Proof.
  intros mood w sleep focus c comment.
  rewrite !compute_scores_closed. cbv zeta.
  change (keyword_hit_of (lower (or_empty None))) with false.
  change (keyword_hit_of (lower (or_empty (Some "")))) with false.
  eexists _, _, _, _, _. repeat (split; [reflexivity|]).
  unfold bumped.
  pose proof (risk_integer_bounds _ _
                (stress_bounds (workload_weight w) mood sleep (conflict_weight c) focus)
                (motivation_bounds (workload_weight w) mood sleep (conflict_weight c) focus)).
  destruct (keyword_hit_of _);
    (split; [lia | intros E; (reflexivity || discriminate E)]).
Qed.

(** X4.  On the ranges of the form (mood and focus in 1..5, sleep in
    0..10) the stress is at least 24 and the risk at least 14, and the best
    check-in reaches both: no check-in of the form scores a risk of 0. *)
Theorem form_risk_floor :
  forall (mood : Z) (w : workload_level) (sleep focus : Z) (c : conflict_level)
         (comment : option string),
  1 <= mood <= 5 -> 0 <= sleep <= 10 -> 1 <= focus <= 5 ->
  exists (s m r : Z) (flag : bool),
    compute_scores mood (workload_label w) sleep focus (conflict_label c) comment
    = Ok (s, m, r, flag)
    /\ 24 <= s /\ 14 <= r
    /\ compute_scores 5 "Faible" 10 5 "Non" None = Ok (24, 100, 14, false).
Proof.
  intros mood w sleep focus c comment Hmood Hsleep Hfocus.
  rewrite compute_scores_closed. cbv zeta.
  eexists _, _, _, _. split; [reflexivity|].
  rewrite <- and_assoc. split; [|vm_compute; reflexivity].
  assert (Hw : 1 <= workload_weight w) by (destruct w; simpl; lia).
  assert (Hc : 1 <= conflict_weight c) by (destruct c; simpl; lia).
  assert (Hs : 24 <= stress (workload_weight w) mood sleep (conflict_weight c) focus)
    by (unfold stress, clamp; lia).
  split; [exact Hs|].
  pose proof (motivation_bounds (workload_weight w) mood sleep (conflict_weight c) focus) as Hm.
  assert (Hr : 14 <= risk_integer
                 (stress (workload_weight w) mood sleep (conflict_weight c) focus)
                 (motivation (workload_weight w) mood sleep (conflict_weight c) focus)).
  { unfold risk_integer. apply Z.div_le_lower_bound; lia. }
  unfold bumped. destruct (keyword_hit_of _); lia.
Qed.

Lemma form_risk_floor_example :
  exists (s m r : Z) (flag : bool),
    compute_scores 5 "Faible" 10 5 "Non" (Some "Tout va bien")
    = Ok (s, m, r, flag)
    /\ 24 <= s /\ 14 <= r
    /\ compute_scores 5 "Faible" 10 5 "Non" None = Ok (24, 100, 14, false).
Proof.
  exact (form_risk_floor 5 Low 10 5 NoConflict (Some "Tout va bien")
           ltac:(lia) ltac:(lia) ltac:(lia)).
Defined.

(** ** Keywords and advice *)

Lemma risk_level_cases (risk : Z) :
  (70 <= risk /\ risk_level risk = "Élevé")
  \/ (40 <= risk < 70 /\ risk_level risk = "Modéré")
  \/ (risk < 40 /\ risk_level risk = "Faible").
Proof.
  unfold risk_level.
  destruct (risk >=? 70) eqn:E1.
  - left. rewrite Z.geb_leb in E1. apply Z.leb_le in E1. split; [lia|reflexivity].
  - rewrite Z.geb_leb in E1. apply Z.leb_gt in E1.
    destruct (risk >=? 40) eqn:E2; rewrite Z.geb_leb in E2.
    + apply Z.leb_le in E2. right. left. split; [lia|reflexivity].
    + apply Z.leb_gt in E2. right. right. split; [lia|reflexivity].
Qed.

(** X5.  Below a risk of 70 the keyword flag changes nothing in what
    [generate_recommendations] returns. *)
Theorem keyword_ignored_below_70 :
  forall (stress motivation risk : Z),
  risk < 70 ->
  generate_recommendations stress motivation risk true
  = generate_recommendations stress motivation risk false.
Proof.
  intros stress motivation risk H. unfold generate_recommendations.
  destruct (risk_level_cases risk) as [[H1 _]|[[_ ->]|[_ ->]]];
    [lia | reflexivity | reflexivity].
Qed.

Lemma keyword_ignored_below_70_example :
  generate_recommendations 80 40 69 true
  = generate_recommendations 80 40 69 false.
Proof. exact (keyword_ignored_below_70 80 40 69 ltac:(lia)). Defined.

(** The action on sensitive keywords is listed exactly under the flag at a
    risk of 70 or more. *)
Lemma keyword_action_shown (stress motivation risk : Z) (flag : bool) :
  In keyword_action
     (manager_actions_of (generate_recommendations stress motivation risk flag))
  <-> flag = true /\ 70 <= risk.
Proof.
  unfold generate_recommendations.
  destruct (risk_level_cases risk) as [[H1 ->]|[[H1 ->]|[H1 ->]]];
    destruct flag; cbn; split;
    try (intros [E _]; discriminate E);
    try (intros [_ E]; lia);
    try (intros _; split; [reflexivity | lia]);
    try (intros; tauto);
    intros H; repeat (destruct H as [H|H]; [discriminate H|]); contradiction.
Qed.

(** X6.  From the form to the advice: the action on sensitive keywords is
    among the manager actions exactly when the comment holds a keyword and
    the risk of the same check-in without comment is at least 60. *)
Theorem keyword_warning_needs_base_60 :
  forall (mood : Z) (w : workload_level) (sleep focus : Z) (c : conflict_level)
         (comment : option string),
  exists (s m r0 r : Z) (flag : bool)
         (advice : string * list string * list string * string),
    compute_scores mood (workload_label w) sleep focus (conflict_label c) None
    = Ok (s, m, r0, false)
    /\ analyse mood (workload_label w) sleep focus (conflict_label c) comment
       = Ok ((s, m, r, flag), advice)
    /\ (In keyword_action (manager_actions_of advice)
        <-> flag = true /\ 60 <= r0).
Proof.
  intros mood w sleep focus c comment. unfold analyse.
  rewrite !compute_scores_closed. cbv zeta.
  change (keyword_hit_of (lower (or_empty None))) with false.
  cbn [bind bumped].
  eexists _, _, _, _, _, _. split; [reflexivity|]. split; [reflexivity|].
  rewrite keyword_action_shown.
  pose proof (risk_integer_bounds _ _
                (stress_bounds (workload_weight w) mood sleep (conflict_weight c) focus)
                (motivation_bounds (workload_weight w) mood sleep (conflict_weight c) focus)).
  unfold bumped. destruct (keyword_hit_of _); split; intros [E Hr];
    try discriminate E; (split; [reflexivity | lia]).
Qed.

(** ** The suggested comments *)

(** X7.  Every category of [comment_suggestions] offers the placeholder and
    three phrases; the placeholder leaves the comment box empty and a phrase
    fills it with itself; taken as comment, exactly three of the twelve
    phrases set the keyword flag: the one on pressure and the two that hold
    [mal]. *)
Theorem suggested_comments :
  forall cat : string,
  In cat suggestion_categories ->
  exists phrases,
    suggestion_choices cat = Ok ("—" :: phrases)
    /\ List.length phrases = 3%nat
    /\ comment_default "—" = ""
    /\ (forall pick, In pick phrases ->
                     comment_default pick = pick /\ pick <> "")
    /\ (forall pick, In pick phrases ->
         (keyword_hit_of (lower (or_empty (Some (comment_default pick)))) = true
          <-> In pick
                ["Je me sens sous pression à cause des délais cette semaine.";
                 "Je dors mal en ce moment, je manque d’énergie.";
                 "Je suis fatigué(e) et j’ai du mal à rester concentré(e)."])).
Proof.
  intros cat Hcat. unfold suggestion_categories in Hcat. cbn in Hcat.
  destruct Hcat as [<-|[<-|[<-|[<-|[]]]]];
    (eexists; split; [reflexivity|]; split; [reflexivity|];
     split; [reflexivity|]; split;
     [ intros pick [<-|[<-|[<-|[]]]]; (split; [reflexivity | discriminate])
     | intros pick [<-|[<-|[<-|[]]]];
       (split;
        [ intros H; first [ discriminate H | (cbn; tauto) ]
        | intros H; first [ (vm_compute; reflexivity)
                          | (exfalso; cbn in H;
                             repeat (destruct H as [H|H]; [discriminate H|]);
                             exact H) ] ]) ]).
Qed.

Lemma suggested_comments_example :
  exists phrases,
    suggestion_choices "Motivation" = Ok ("—" :: phrases)
    /\ List.length phrases = 3%nat
    /\ comment_default "—" = ""
    /\ (forall pick, In pick phrases ->
                     comment_default pick = pick /\ pick <> "")
    /\ (forall pick, In pick phrases ->
         (keyword_hit_of (lower (or_empty (Some (comment_default pick)))) = true
          <-> In pick
                ["Je me sens sous pression à cause des délais cette semaine.";
                 "Je dors mal en ce moment, je manque d’énergie.";
                 "Je suis fatigué(e) et j’ai du mal à rester concentré(e)."])).
Proof.
  apply (suggested_comments "Motivation"). simpl. tauto.
Defined.

(** ** The history of a session *)

Lemma getitem_recognized_workload (workload : string) (v : Z) :
  getitem workload_map workload = Ok v ->
  exists w, workload = workload_label w.
Proof.
  unfold workload_map. cbn [getitem].
  destruct (String.eqb_spec "Faible" workload) as [<-|_]; [exists Low; reflexivity|].
  destruct (String.eqb_spec "Moyenne" workload) as [<-|_]; [exists Medium; reflexivity|].
  destruct (String.eqb_spec "Élevée" workload) as [<-|_]; [exists High; reflexivity|].
  discriminate.
Qed.

Lemma getitem_recognized_conflict (conflicts : string) (v : Z) :
  getitem conflict_map conflicts = Ok v ->
  exists c, conflicts = conflict_label c.
Proof.
  unfold conflict_map. cbn [getitem].
  destruct (String.eqb_spec "Non" conflicts) as [<-|_]; [exists NoConflict; reflexivity|].
  destruct (String.eqb_spec "Oui (léger)" conflicts) as [<-|_]; [exists Mild; reflexivity|].
  destruct (String.eqb_spec "Oui (important)" conflicts) as [<-|_]; [exists Severe; reflexivity|].
  discriminate.
Qed.

Lemma compute_scores_recognized (mood : Z) (workload : string) (sleep focus : Z)
    (conflicts : string) (comment : option string) (r : Z * Z * Z * bool) :
  compute_scores mood workload sleep focus conflicts comment = Ok r ->
  exists w c, workload = workload_label w /\ conflicts = conflict_label c.
Proof.
  unfold compute_scores. intros H.
  destruct (getitem workload_map workload) as [v|e] eqn:Ew; [|discriminate H].
  destruct (getitem conflict_map conflicts) as [v'|e] eqn:Ec; [|discriminate H].
  destruct (getitem_recognized_workload _ _ Ew) as [w ->].
  destruct (getitem_recognized_conflict _ _ Ec) as [c ->].
  exists w, c. split; reflexivity.
Qed.

Lemma workload_label_in (w : workload_level) :
  In (workload_label w) ["Faible"; "Moyenne"; "Élevée"].
Proof. destruct w; simpl; tauto. Qed.

Lemma conflict_label_in (c : conflict_level) :
  In (conflict_label c) ["Non"; "Oui (léger)"; "Oui (important)"].
Proof. destruct c; simpl; tauto. Qed.

(** One submission: the history is kept, or grows by one consistent entry. *)
Lemma submit_step (now : string) (f : form) (history history' : list entry) :
  submit now f history = Ok history' ->
  (consent f = false /\ history' = history)
  \/ (consent f = true
      /\ exists e, history' = history ++ [e] /\ consistent e
                   /\ h_date e = now
                   /\ h_comment e = (if anonym f then "" else or_empty (comment f))).
Proof.
  unfold submit. destruct (consent f); cbn [negb].
  2:{ intros H. injection H as <-. left. split; reflexivity. }
  intros H. right. split; [reflexivity|].
  destruct (compute_scores (mood f) (workload f) (sleep f) (focus f)
                           (conflicts f) (comment f)) as [[[[s m] r] k]|e] eqn:E;
    [|discriminate H].
  cbn [bind] in H. injection H as <-.
  eexists. split; [reflexivity|]. split; [|split; reflexivity].
  destruct (compute_scores_recognized _ _ _ _ _ _ _ E) as (w & c & Hw & Hc).
  rewrite Hw, Hc in E. rewrite compute_scores_closed in E. cbv zeta in E.
  injection E as Es Em Er Ek.
  pose proof (stress_bounds (workload_weight w) (mood f) (sleep f)
                            (conflict_weight c) (focus f)) as Bs.
  pose proof (motivation_bounds (workload_weight w) (mood f) (sleep f)
                                (conflict_weight c) (focus f)) as Bm.
  pose proof (risk_integer_bounds _ _ Bs Bm) as Br.
  rewrite Ek in Er. rewrite Es in Bs, Br, Er. rewrite Em in Bm, Br, Er.
  assert (Hr : 0 <= r <= 100) by (subst r; unfold bumped; destruct k; lia).
  unfold consistent. cbn [h_workload h_conflicts h_stress h_motivation h_risk
                          h_flag_keywords h_mood h_sleep h_focus h_comment].
  rewrite Hw, Hc.
  split; [apply workload_label_in|]. split; [apply conflict_label_in|].
  split; [exact Bs|]. split; [exact Bm|]. split; [exact Hr|].
  split; [symmetry; exact Er|].
  rewrite compute_scores_closed. cbv zeta. rewrite Es, Em.
  eexists _, _. split; [reflexivity|].
  destruct (anonym f).
  - change (keyword_hit_of (lower (or_empty (Some "")))) with false.
    split; [|discriminate].
    subst r. unfold bumped. destruct k; lia.
  - replace (or_empty (Some (or_empty (comment f)))) with (or_empty (comment f))
      by (destruct (comment f); reflexivity).
    rewrite Ek. split; [|tauto]. subst r. unfold bumped. destruct k; lia.
Qed.

(** X8.  Every entry of a history that submissions built from the empty
    one is consistent: recognized workload and conflict values, scores in
    0..100, a risk that is the integer formula on the stored stress and
    motivation adjusted under the stored flag, and indicators from which the
    stored stress and motivation are computed again (the risk too, up to
    the ten points of a comment that anonymization removed). *)
Theorem history_entries_consistent :
  forall history : list entry,
  reachable history -> Forall consistent history.
Proof.
  intros history H. induction H as [|now f history history' _ IH Hs].
  - constructor.
  - destruct (submit_step now f history history' Hs)
      as [[_ ->]|[_ (e & -> & He & _)]].
    + exact IH.
    + apply Forall_app. split; [exact IH | constructor; [exact He | constructor]].
Qed.

Lemma history_entries_consistent_example :
  Forall consistent
    [ {| h_date := "2025-01-15 09:30"; h_org := "Équipe projet";
         h_role := "Collaborateur"; h_mood := 2; h_workload := "Élevée";
         h_sleep := 5; h_focus := 2; h_conflicts := "Oui (léger)";
         h_stress := 100; h_motivation := 20; h_risk := 100;
         h_flag_keywords := true; h_comment := "" |} ].
Proof.
  apply history_entries_consistent.
  apply (reachable_submit "2025-01-15 09:30" sample_form [] _ reachable_start).
  vm_compute. reflexivity.
Defined.

Lemma submit_returns (now : string) (f : form) (history : list entry)
    (w : workload_level) (c : conflict_level) :
  workload f = workload_label w -> conflicts f = conflict_label c ->
  exists history', submit now f history = Ok history'.
Proof.
  intros Hw Hc. unfold submit. destruct (consent f); cbn [negb].
  - rewrite Hw, Hc, compute_scores_closed. cbv zeta. cbn [bind].
    eexists. reflexivity.
  - eexists. reflexivity.
Qed.

(** X9.  A submission with recognized workload and conflict values
    completes, keeps every entry the history held, in place, and adds one
    entry with consent and none without. *)
Theorem history_grows_by_one :
  forall (now : string) (f : form) (history : list entry)
         (w : workload_level) (c : conflict_level),
  workload f = workload_label w -> conflicts f = conflict_label c ->
  exists history',
    submit now f history = Ok history'
    /\ firstn (List.length history) history' = history
    /\ (List.length history'
        = if consent f then S (List.length history) else List.length history)%nat.
Proof.
  intros now f history w c Hw Hc.
  destruct (submit_returns now f history w c Hw Hc) as [history' H].
  exists history'. split; [exact H|].
  destruct (submit_step now f history history' H)
    as [[Hk ->]|[Hk (e & -> & _)]]; rewrite Hk.
  - split; [apply firstn_all | reflexivity].
  - split.
    + rewrite firstn_app, Nat.sub_diag, firstn_all. cbn. apply app_nil_r.
    + rewrite length_app. cbn. lia.
Qed.

Lemma history_grows_by_one_example :
  exists history',
    submit "2025-01-15 09:30" sample_form [] = Ok history'
    /\ firstn 0 history' = []
    /\ List.length history' = 1%nat.
Proof.
  exact (history_grows_by_one "2025-01-15 09:30" sample_form [] High Mild
           eq_refl eq_refl).
Defined.

End ApplFacts.

(* ================================================================= *)
(** * Properties of the consultation dashboard *)

Module CollecteFacts.

Import Collecte Reference.

(** ** Row masks *)

Lemma keep_map (p : list cell -> bool) (rs : list (list cell)) :
  keep (map p rs) rs = filter p rs.
Proof.
  induction rs as [|r rs IH]; simpl.
  - reflexivity.
  - rewrite IH. reflexivity.
Qed.

Lemma filter_all {A : Type} (l : list A) : filter (fun _ => true) l = l.
Proof. induction l as [|a l IH]; simpl; [|rewrite IH]; reflexivity. Qed.

Lemma filter_twice {A : Type} (p q : A -> bool) (l : list A) :
  filter q (filter p l) = filter (fun a => p a && q a) l.
Proof.
  induction l as [|a l IH]; simpl.
  - reflexivity.
  - destruct (p a); simpl; [destruct (q a)|]; rewrite IH; reflexivity.
Qed.

Lemma existsb_map {A B : Type} (f : B -> bool) (g : A -> B) (l : list A) :
  existsb f (map g l) = existsb (fun a => f (g a)) l.
Proof. induction l as [|a l IH]; simpl; [|rewrite IH]; reflexivity. Qed.

Lemma forallb_map {A B : Type} (f : B -> bool) (g : A -> B) (l : list A) :
  forallb f (map g l) = forallb (fun a => f (g a)) l.
Proof. induction l as [|a l IH]; simpl; [|rewrite IH]; reflexivity. Qed.

Lemma forallb_filter {A : Type} (f p : A -> bool) (l : list A) :
  forallb f l = true -> forallb f (filter p l) = true.
Proof.
  induction l as [|a l IH]; simpl; intros H.
  - reflexivity.
  - apply andb_true_iff in H. destruct H as [Ha Hl].
    destruct (p a); simpl; [rewrite Ha|]; auto.
Qed.

(** ** The columns the filters read, on a table with the expected columns *)

Lemma series_at (rs : list (list cell)) (label : string) (i : nat) :
  positions label cols = [i] ->
  series {| columns := cols; rows := rs |} label = Ok (map (cell_at i) rs).
Proof.
  intros H. unfold series, getitem. cbn [columns rows]. rewrite H. reflexivity.
Qed.

Lemma filter_isin_at (rs : list (list cell)) (label : string) (i : nat)
    (allowed : list string) :
  positions label cols = [i] ->
  match allowed with
  | [] => Ok {| columns := cols; rows := rs |}
  | _ => filter_isin {| columns := cols; rows := rs |} label allowed
  end
  = Ok {| columns := cols;
          rows := filter (fun r => match allowed with
                                   | [] => true
                                   | _ => isin allowed (cell_at i r)
                                   end) rs |}.
Proof.
  intros H. destruct allowed as [|a allowed].
  - rewrite filter_all. reflexivity.
  - unfold filter_isin. rewrite (series_at rs label i H). cbn [bind columns rows].
    rewrite map_map, keep_map. reflexivity.
Qed.

(** [apply_filters] after its organization and role filters. *)
Lemma apply_filters_survivors (rs : list (list cell))
    (org_filter role_filter : list string) (date_range : option (list Z)) :
  apply_filters {| columns := cols; rows := rs |} org_filter role_filter
                date_range
  = let filtered :=
      {| columns := cols;
         rows := filter (passes org_filter role_filter) rs |} in
    match date_range with
    | Some [start; end_] =>
        ts <- series filtered "timestamp" ;;
        if existsb notna ts then
          dates <- dt_date ts ;;
          Ok {| columns := columns filtered;
                rows := keep (map (in_range start end_) dates) (rows filtered) |}
        else Ok filtered
    | _ => Ok filtered
    end.
Proof.
  unfold apply_filters. cbv zeta.
  rewrite (filter_isin_at rs "organization" 1 org_filter eq_refl). cbn [bind].
  rewrite (filter_isin_at _ "user_role" 2 role_filter eq_refl). cbn [bind].
  rewrite filter_twice. reflexivity.
Qed.

Lemma dated_in_range (start end_ : Z) (r : list cell) :
  datetimelike (timestamp_of r) = true ->
  in_range start end_ (match timestamp_of r with
                       | Time t => Some (ts_date t)
                       | _ => None
                       end)
  = dated start end_ r.
Proof.
  unfold dated, in_range. destruct (timestamp_of r); try reflexivity.
  rewrite Z.geb_leb. reflexivity.
Qed.

Lemma dated_has_timestamp (start end_ : Z) (r : list cell) :
  dated start end_ r = true ->
  exists t, timestamp_of r = Time t /\ start <= ts_date t <= end_.
Proof.
  unfold dated. destruct (timestamp_of r) as [| |t| | |]; try discriminate.
  intros H. apply andb_true_iff in H. destruct H as [H1 H2].
  apply Z.leb_le in H1, H2. exists t. split; [reflexivity | lia].
Qed.

(** ** Claims on the filter block *)

(** C6, as the program has it.  On a loaded table (the expected columns, a
    timestamp column of times), with both bounds of the period given: when
    some record that passes the organization and role filters has a
    timestamp, the result keeps exactly the passing records whose timestamp
    is present and whose day lies in the period, so none without a
    timestamp; when no passing record has a timestamp, the date filter is
    not applied and the result is the passing records.  With no period the
    result is the passing records, a missing timestamp or not. *)
Theorem date_filter_when_some_timestamp :
  forall (df : DataFrame) (org_filter role_filter : list string)
         (start end_ : Z),
  columns df = cols ->
  forallb datetimelike (map timestamp_of (rows df)) = true ->
  let survivors := filter (passes org_filter role_filter) (rows df) in
  apply_filters df org_filter role_filter None
  = Ok {| columns := cols; rows := survivors |}
  /\ apply_filters df org_filter role_filter (Some [start; end_])
     = Ok {| columns := cols;
             rows := if existsb has_timestamp survivors
                     then filter (dated start end_) survivors
                     else survivors |}
  /\ (forall r, In r (filter (dated start end_) survivors) ->
                In r survivors
                /\ exists t, timestamp_of r = Time t
                             /\ start <= ts_date t <= end_).
Proof.
  intros [cs rs] org_filter role_filter start end_ Hcols Htimes survivors.
  cbn [columns rows] in *. subst cs.
  split; [|split].
  - rewrite apply_filters_survivors. reflexivity.
  - rewrite apply_filters_survivors. cbv zeta.
    rewrite (series_at _ "timestamp" 0 eq_refl). cbn [bind].
    fold survivors.
    change (map (cell_at 0) survivors) with (map timestamp_of survivors).
    rewrite existsb_map.
    change (existsb (fun a => notna (timestamp_of a)) survivors)
      with (existsb has_timestamp survivors).
    destruct (existsb has_timestamp survivors); [|reflexivity].
    assert (Hs : forallb datetimelike (map timestamp_of survivors) = true).
    { rewrite forallb_map. apply forallb_filter.
      rewrite <- forallb_map. exact Htimes. }
    unfold dt_date. rewrite Hs. cbn [bind columns rows].
    rewrite !map_map, keep_map. f_equal. f_equal.
    rewrite forallb_map in Hs. rewrite forallb_forall in Hs.
    clear - Hs. induction survivors as [|r l IH]; simpl.
    + reflexivity.
    + rewrite dated_in_range by (apply Hs; left; reflexivity).
      rewrite IH by (intros x Hx; apply Hs; right; exact Hx). reflexivity.
  - intros r Hr. apply filter_In in Hr. destruct Hr as [Hin Hd].
    split; [exact Hin | apply dated_has_timestamp; exact Hd].
Qed.

Lemma date_filter_when_some_timestamp_example :
  apply_filters Check.sample_table [] [] None
  = Ok {| columns := cols; rows := [Check.row_ventes; Check.row_support] |}
  /\ apply_filters Check.sample_table [] [] (Some [739266; 739270])
     = Ok {| columns := cols; rows := [Check.row_ventes] |}.
Proof.
  pose proof (date_filter_when_some_timestamp Check.sample_table [] []
                739266 739270 eq_refl eq_refl) as H.
  cbv zeta in H. destruct H as (H0 & H1 & _). split; [exact H0 | exact H1].
Defined.

(** C6, as the claim states it, fails: the sheet [Check.sample_sheet] loads
    into a table with one timestamp, so the sidebar offers a period; with
    the organization filter on "Support" the only passing record has no
    timestamp, the date filter is skipped and that record is returned
    although both bounds of the period are given. *)
Lemma missing_timestamp_kept_under_period :
  load_data Check.sample_datetimes Check.sample_numbers Check.sample_sheet
  = Ok Check.sample_table
  /\ date_range_of Check.sample_table [739266; 739270]
     = Ok (Some [739266; 739270])
  /\ apply_filters Check.sample_table ["Support"] [] (Some [739266; 739270])
     = Ok {| columns := cols; rows := [Check.row_support] |}
  /\ has_timestamp Check.row_support = false.
Proof. vm_compute. repeat split. Qed.

(** ** Labels and their positions *)







(** ** Rows of one width *)






Section Conversions.

Variable parse_datetimes : list (option string) -> list (option timestamp).
Variable parse_numbers : list (option string) -> list (option number).





End Conversions.

(** ** Filling and reordering *)




Section Loaded.

Variable parse_datetimes : list (option string) -> list (option timestamp).
Variable parse_numbers : list (option string) -> list (option number).




End Loaded.

(** ** Claims on [load_data] *)

(** C7.  On a source with no row or with a header row only, [load_data]
    returns the empty table whose columns are the expected ones, whatever
    the header holds; it raises nothing. *)
Theorem load_data_without_rows :
  forall (parse_datetimes : list (option string) -> list (option timestamp))
         (parse_numbers : list (option string) -> list (option number))
         (values : list (list string)),
  (List.length values < 2)%nat ->
  load_data parse_datetimes parse_numbers values
  = Ok {| columns := cols; rows := [] |}.
Proof.
  intros parse_datetimes parse_numbers values H. unfold load_data.
  destruct values as [|header [|row values]].
  - reflexivity.
  - reflexivity.
  - simpl in H. lia.
Qed.

Lemma load_data_without_rows_example :
  load_data Check.sample_datetimes Check.sample_numbers []
  = Ok {| columns := cols; rows := [] |}
  /\ load_data Check.sample_datetimes Check.sample_numbers [[]]
     = Ok {| columns := cols; rows := [] |}
  /\ load_data Check.sample_datetimes Check.sample_numbers
               [["organization"; "note"]]
     = Ok {| columns := cols; rows := [] |}.
Proof.
  split; [|split]; apply load_data_without_rows; simpl; lia.
Defined.

(** C5 does not hold of the program.  A source that has data rows and no
    "timestamp" column makes [load_data] raise [KeyError]: the column is
    converted at line 42, before the loop of lines 47-49 that inserts the
    absent columns.  The same happens one step later for "mood",
    "sleep_hours" and "focus".  The other five columns are inserted as
    columns of [None] when absent, and the result then has the expected
    columns in their order ([load_data_converted_present] has the general
    statement). *)
Theorem load_data_absent_converted_column :
  forall (parse_datetimes : list (option string) -> list (option timestamp))
         (parse_numbers : list (option string) -> list (option number)),
  load_data parse_datetimes parse_numbers
            [["organization"; "comment"]; ["Acme"; "ok"]]
  = Raise (KeyError "timestamp")
  /\ load_data parse_datetimes parse_numbers
               [["timestamp"; "organization"; "sleep_hours"; "focus"];
                ["2025-01-15 09:30"; "Acme"; "7"; "4"]]
     = Raise (KeyError "mood")
  /\ load_data Check.sample_datetimes Check.sample_numbers
               [["focus"; "timestamp"; "sleep_hours"; "mood"];
                ["4"; "2025-01-15 09:30"; "7"; "3"]]
     = Ok {| columns := cols;
             rows := [[Time {| ts_date := 739266; ts_time := 34200 |};
                       NoneV; NoneV; Num (Int 3); NoneV; Num (Int 7);
                       Num (Int 4); NoneV; NoneV]] |}.
Proof.
  intros parse_datetimes parse_numbers. split; [|split].
  - reflexivity.
  - reflexivity.
  - vm_compute. reflexivity.
Qed.

(** ** The columns of a loaded table *)

Import Notions.







Section Columns.

Variable parse_datetimes : list (option string) -> list (option timestamp).
Variable parse_numbers : list (option string) -> list (option number).




End Columns.

Section Characterized.

Variable parse_datetimes : list (option string) -> list (option timestamp).
Variable parse_numbers : list (option string) -> list (option number).






Lemma to_datetime_datetimelike (vs ws : list cell) :
  to_datetime parse_datetimes (Series vs) = Ok ws ->
  forallb datetimelike ws = true.
Proof.
  cbn [to_datetime]. intros H. injection H as <-.
  apply forallb_forall. intros c Hc. apply in_map_iff in Hc.
  destruct Hc as (k & <- & _).
  destruct (nth k (parse_datetimes (map text_of vs)) None); reflexivity.
Qed.


End Characterized.


Section Described.

Variable parse_datetimes : list (option string) -> list (option timestamp).
Variable parse_numbers : list (option string) -> list (option number).


End Described.


(** ** Composing the loader and the filters *)

Lemma apply_filters_shown (rs : list (list cell))
    (org_filter role_filter : list string) (date_range : option (list Z)) :
  forallb datetimelike (map timestamp_of rs) = true ->
  apply_filters {| columns := cols; rows := rs |} org_filter role_filter
                date_range
  = Ok {| columns := cols;
          rows := shown org_filter role_filter date_range rs |}.
Proof.
  intros Htimes. rewrite apply_filters_survivors. cbv zeta. unfold shown.
  set (survivors := filter (passes org_filter role_filter) rs).
  destruct date_range as [[|start [|end_ [|x l]]]|]; try reflexivity.
  rewrite (series_at _ "timestamp" 0 eq_refl). cbn [bind].
  change (map (cell_at 0) survivors) with (map timestamp_of survivors).
  rewrite existsb_map.
  change (existsb (fun a => notna (timestamp_of a)) survivors)
    with (existsb has_timestamp survivors).
  destruct (existsb has_timestamp survivors); [|reflexivity].
  assert (Hs : forallb datetimelike (map timestamp_of survivors) = true).
  { rewrite forallb_map. apply forallb_filter.
    rewrite <- forallb_map. exact Htimes. }
  unfold dt_date. rewrite Hs. cbn [bind columns rows].
  rewrite !map_map, keep_map. f_equal. f_equal.
  rewrite forallb_map in Hs. rewrite forallb_forall in Hs.
  clear - Hs. induction survivors as [|r l IH]; simpl.
  - reflexivity.
  - rewrite dated_in_range by (apply Hs; left; reflexivity).
    rewrite IH by (intros x Hx; apply Hs; right; exact Hx). reflexivity.
Qed.

Lemma filter_idem {A : Type} (p : A -> bool) (l : list A) :
  filter p (filter p l) = filter p l.
Proof.
  rewrite filter_twice. apply filter_ext. intros a. destruct (p a); reflexivity.
Qed.

Lemma filter_keeps_all {A : Type} (p : A -> bool) (l : list A) :
  (forall a, In a l -> p a = true) -> filter p l = l.
Proof.
  induction l as [|a l IH]; intros H; simpl.
  - reflexivity.
  - rewrite (H a (or_introl eq_refl)). f_equal.
    apply IH. intros x Hx. apply H. right. exact Hx.
Qed.

Lemma existsb_false_filter {A : Type} (p q : A -> bool) (l : list A) :
  existsb p l = false -> existsb p (filter q l) = false.
Proof.
  induction l as [|a l IH]; simpl; intros H.
  - reflexivity.
  - apply orb_false_iff in H. destruct H as [Ha Hl].
    destruct (q a); simpl; [rewrite Ha|]; auto.
Qed.

Lemma dated_is_timestamped (first last : Z) (r : list cell) :
  dated first last r = true -> has_timestamp r = true.
Proof.
  unfold dated, has_timestamp. destruct (timestamp_of r); try discriminate.
  reflexivity.
Qed.

Lemma shown_as_filter (organizations roles : list string)
    (date_range : option (list Z)) (rs : list (list cell)) :
  exists p, shown organizations roles date_range rs = filter p rs.
Proof.
  unfold shown.
  destruct date_range as [[|first [|last [|x l]]]|];
    try (exists (passes organizations roles); reflexivity).
  destruct (existsb has_timestamp (filter (passes organizations roles) rs)).
  - exists (fun r => passes organizations roles r && dated first last r).
    apply filter_twice.
  - exists (passes organizations roles). reflexivity.
Qed.

Lemma shown_idem (organizations roles : list string)
    (date_range : option (list Z)) (rs : list (list cell)) :
  shown organizations roles date_range (shown organizations roles date_range rs)
  = shown organizations roles date_range rs.
Proof.
  unfold shown.
  set (survivors := filter (passes organizations roles) rs).
  destruct date_range as [[|first [|last [|x l]]]|];
    try (unfold survivors; apply filter_idem).
  destruct (existsb has_timestamp survivors) eqn:E.
  - assert (Hpass : filter (passes organizations roles)
                      (filter (dated first last) survivors)
                    = filter (dated first last) survivors).
    { apply filter_keeps_all. intros r Hr.
      apply filter_In in Hr. destruct Hr as [Hr _].
      unfold survivors in Hr. apply filter_In in Hr. tauto. }
    rewrite Hpass.
    destruct (existsb has_timestamp (filter (dated first last) survivors));
      [apply filter_idem | reflexivity].
  - assert (Hpass : filter (passes organizations roles) survivors = survivors)
      by (unfold survivors; apply filter_idem).
    rewrite Hpass, E. reflexivity.
Qed.

(** X11.  On a table with the expected columns whose timestamp column holds
    times and missing times, the filter block returns, whatever the
    criteria, the table with some of its rows removed and the others in
    their order; applied again with the same criteria to what it returned,
    it returns it unchanged. *)
Theorem apply_filters_idempotent :
  forall (df : DataFrame) (org_filter role_filter : list string)
         (date_range : option (list Z)),
  columns df = cols ->
  forallb datetimelike (map timestamp_of (rows df)) = true ->
  exists out,
    apply_filters df org_filter role_filter date_range = Ok out
    /\ columns out = cols
    /\ (exists p, rows out = filter p (rows df))
    /\ apply_filters out org_filter role_filter date_range = Ok out.
Proof.
  intros [cs rs] org_filter role_filter date_range Hc Ht.
  cbn [columns rows] in *. subst cs.
  rewrite (apply_filters_shown rs _ _ _ Ht).
  eexists. split; [reflexivity|]. cbn [columns rows].
  split; [reflexivity|]. split; [apply shown_as_filter|].
  destruct (shown_as_filter org_filter role_filter date_range rs) as [p Hp].
  rewrite apply_filters_shown.
  - rewrite shown_idem. reflexivity.
  - rewrite Hp. rewrite forallb_map. apply forallb_filter.
    rewrite <- forallb_map. exact Ht.
Qed.

Lemma apply_filters_idempotent_example :
  exists out,
    apply_filters Check.sample_table ["Ventes"] ["Manager"]
                  (Some [739266%Z; 739270%Z]) = Ok out
    /\ columns out = cols
    /\ (exists p, rows out = filter p (rows Check.sample_table))
    /\ apply_filters out ["Ventes"] ["Manager"] (Some [739266%Z; 739270%Z])
       = Ok out.
Proof.
  exact (apply_filters_idempotent Check.sample_table ["Ventes"] ["Manager"]
           (Some [739266%Z; 739270%Z]) eq_refl eq_refl).
Defined.

Section Composed.

Variable parse_datetimes : list (option string) -> list (option timestamp).
Variable parse_numbers : list (option string) -> list (option number).


End Composed.


(** ** The sidebar *)

Lemma dropna_In (texts : list (option string)) (s : string) :
  In s (dropna texts) <-> In (Some s) texts.
Proof.
  induction texts as [|[x|] texts IH]; simpl.
  - tauto.
  - rewrite IH. split; intros [H|H]; auto; left; congruence.
  - rewrite IH. split; [auto | intros [H|H]; [discriminate | exact H]].
Qed.

Lemma unique_In (l : list string) (s : string) : In s (unique l) <-> In s l.
Proof.
  induction l as [|x l IH]; simpl.
  - tauto.
  - rewrite filter_In, IH. split.
    + intros [H|[H _]]; auto.
    + intros [H|H]; [left; exact H|].
      destruct (String.eqb_spec x s) as [E|N]; [left; exact E|].
      right. split; [exact H | reflexivity].
Qed.

Lemma unique_NoDup (l : list string) : NoDup (unique l).
Proof.
  induction l as [|x l IH]; simpl.
  - constructor.
  - constructor.
    + rewrite filter_In. intros [_ H]. rewrite String.eqb_refl in H. discriminate.
    + apply NoDup_filter. exact IH.
Qed.

Lemma insert_sorted_In (s x : string) (l : list string) :
  In x (insert_sorted s l) <-> x = s \/ In x l.
Proof.
  induction l as [|y l IH]; simpl.
  - intuition congruence.
  - destruct (String.leb s y); simpl; [intuition congruence|].
    rewrite IH. intuition congruence.
Qed.

Lemma sorted_In (l : list string) (x : string) : In x (sorted l) <-> In x l.
Proof.
  induction l as [|y l IH]; simpl.
  - tauto.
  - rewrite insert_sorted_In, IH. intuition congruence.
Qed.

(** The order of [String.ltb] is strict and transitive. *)
Lemma ltb_lt (a b : string) :
  String.ltb a b = true <-> OrderedTypeEx.String_as_OT.lt a b.
Proof.
  unfold String.ltb. rewrite <- OrderedTypeEx.String_as_OT.cmp_lt. unfold OrderedTypeEx.String_as_OT.cmp.
  destruct (String.compare a b); intuition discriminate.
Qed.

Lemma ltb_trans (a b c : string) :
  String.ltb a b = true -> String.ltb b c = true -> String.ltb a c = true.
Proof.
  rewrite !ltb_lt. apply OrderedTypeEx.String_as_OT.lt_trans.
Qed.

Lemma leb_cases (a b : string) :
  String.leb a b = true <-> (a = b \/ String.ltb a b = true).
Proof.
  unfold String.leb, String.ltb.
  destruct (String.compare a b) eqn:E.
  - apply String.compare_eq_iff in E. intuition.
  - intuition.
  - split; [discriminate|]. intros [->|H]; [|discriminate].
    pose proof (String.compare_antisym b b) as A. rewrite E in A.
    discriminate A.
Qed.

Lemma not_leb_ltb (a b : string) :
  String.leb a b = false -> String.ltb b a = true.
Proof.
  unfold String.leb, String.ltb. rewrite (String.compare_antisym b a).
  destruct (String.compare a b); simpl; congruence.
Qed.

Lemma insert_strictly_sorted (s : string) (l : list string) :
  ~ In s l -> strictly_sorted l -> strictly_sorted (insert_sorted s l).
Proof.
  unfold strictly_sorted. intros Hs Hl.
  induction Hl as [|y l Hl IH Hy]; simpl.
  - repeat constructor.
  - destruct (String.leb s y) eqn:E.
    + apply leb_cases in E. destruct E as [->|E]; [exfalso; apply Hs; left; reflexivity|].
      constructor; [constructor; assumption|].
      constructor; [exact E|].
      rewrite Forall_forall in Hy |- *. intros z Hz.
      apply (ltb_trans s y z); [exact E | apply Hy; exact Hz].
    + apply not_leb_ltb in E.
      constructor.
      * apply IH. intros H. apply Hs. right. exact H.
      * rewrite Forall_forall in Hy |- *. intros z Hz.
        apply insert_sorted_In in Hz. destruct Hz as [->|Hz]; [exact E | apply Hy; exact Hz].
Qed.

Lemma sorted_strictly (l : list string) : NoDup l -> strictly_sorted (sorted l).
Proof.
  intros H. induction H as [|x l Hx Hl IH]; simpl.
  - constructor.
  - apply insert_strictly_sorted; [|exact IH].
    rewrite sorted_In. exact Hx.
Qed.

Lemma choices_In (texts : list (option string)) (s : string) :
  In s (choices texts) <-> In (Some s) texts /\ blank s = false.
Proof.
  unfold choices. rewrite sorted_In, filter_In, unique_In, dropna_In.
  rewrite negb_true_iff. tauto.
Qed.

Lemma choices_sorted (texts : list (option string)) :
  strictly_sorted (choices texts).
Proof.
  unfold choices. apply sorted_strictly. apply NoDup_filter. apply unique_NoDup.
Qed.

Lemma strictly_sorted_NoDup (l : list string) : strictly_sorted l -> NoDup l.
Proof.
  unfold strictly_sorted. intros H.
  induction H as [|x l Hl IH Hx]; constructor; [|exact IH].
  intros Hin. rewrite Forall_forall in Hx. specialize (Hx x Hin).
  apply ltb_lt in Hx. apply OrderedTypeEx.String_as_OT.lt_not_eq in Hx. apply Hx. reflexivity.
Qed.

(** X13.  The choices the sidebar offers for a column of texts are the
    texts of the column that are not blank, each one once, in strictly
    increasing order. *)
Theorem sidebar_choices :
  forall texts : list (option string),
  strictly_sorted (choices texts)
  /\ NoDup (choices texts)
  /\ forall s, In s (choices texts) <-> In (Some s) texts /\ blank s = false.
Proof.
  intros texts. split; [apply choices_sorted|].
  split; [apply strictly_sorted_NoDup, choices_sorted | apply choices_In].
Qed.





Section DefaultView.

Variable parse_datetimes : list (option string) -> list (option timestamp).
Variable parse_numbers : list (option string) -> list (option number).


End DefaultView.


End CollecteFacts.
